(** * Azure AI Foundry chat relay: a shallow embedding

    The relay forwards a chat message to a remote thread/run API
    (azureFoundryClient.ts) behind one HTTP route (index.ts).  This
    file embeds the client and the route handler and checks the
    behaviour the specification states about them.

    JavaScript strings are sequences of UTF-16 code units, JSON payloads are
    untyped values, exceptions are an explicit result, and everything the
    client awaits (token acquisition, fetch, timers, the clock, randomUUID)
    is answered by an explicit [World] threaded through a state monad.
    The [World] also says how much room the call stack has, which bounds
    the one recursive function of the client. *)

From Stdlib Require Import List ZArith NArith Lia Bool String Ascii.
From Stdlib Require Import SpecFloat DecimalString.
Import ListNotations.

Set Implicit Arguments.
Set Warnings "-register-all,-abstract-large-number".

(** ** JavaScript strings *)

Module JsString.

(** A string is its sequence of UTF-16 code units. *)
Definition jstring := list N.

(** Source literals are ASCII; [js] reads one as code units. *)
Definition js (s : string) : jstring :=
  List.map N_of_ascii (list_ascii_of_string s).

Definition eqb (a b : jstring) : bool :=
  if list_eq_dec N.eq_dec a b then true else false.

Definition nonempty (s : jstring) : bool :=
  match s with [] => false | _ :: _ => true end.

(** The line feed used as separator by [join("\n")]. *)
Definition LF : jstring := [10%N].

(** [Array.prototype.join] on an array of strings. *)
Fixpoint join (sep : jstring) (parts : list jstring) : jstring :=
  match parts with
  | [] => []
  | [p] => p
  | p :: rest => p ++ sep ++ join sep rest
  end.

(** WhiteSpace and LineTerminator code units of ECMAScript, the ones
    [String.prototype.trim] strips. *)
Definition is_whitespace (c : N) : bool :=
  ((9 <=? c) && (c <=? 13) || (c =? 32) || (c =? 160) || (c =? 5760)
   || (8192 <=? c) && (c <=? 8202) || (c =? 8232) || (c =? 8233)
   || (c =? 8239) || (c =? 8287) || (c =? 12288) || (c =? 65279))%N.

Fixpoint trimStart (s : jstring) : jstring :=
  match s with
  | c :: rest => if is_whitespace c then trimStart rest else s
  | [] => []
  end.

Definition trimEnd (s : jstring) : jstring := rev (trimStart (rev s)).

Definition trim (s : jstring) : jstring := trimEnd (trimStart s).

(** Decimal rendering of a non-negative integer, as a template literal
    prints an HTTP status code. *)
Definition of_N (n : N) : jstring :=
  js (DecimalString.NilZero.string_of_uint (N.to_uint n)).

End JsString.
Import JsString.

(** ** JSON values as the JavaScript runtime sees them *)

Inductive value : Type :=
| JUndefined
| JNull
| JBool (b : bool)
| JNum (x : spec_float)
| JStr (s : jstring)
| JArr (items : list value)
| JObj (fields : list (jstring * value)).

(** Exceptions.  [Error] is [new Error(message)] as the client throws it;
    the others are raised by the runtime or by a collaborator:
    [RangeError] is the one the engine throws when the call stack has no
    room for another call. *)
Inductive exn : Type :=
| Error (message : jstring)
| TypeError (base : value) (key : jstring)
| SyntaxError (message : jstring)
| Rejected (reason : jstring)
| RangeError.

Inductive outcome (A : Type) : Type :=
| Ok (a : A)
| Throw (e : exn)
| Diverge.
Arguments Ok {A} a.
Arguments Throw {A} e.
Arguments Diverge {A}.

Module Js.

(** [!v] is [negb (truthy v)]. *)
Definition truthy (v : value) : bool :=
  match v with
  | JUndefined | JNull => false
  | JBool b => b
  | JNum (S754_zero _) | JNum S754_nan => false
  | JNum _ => true
  | JStr s => nonempty s
  | JArr _ | JObj _ => true
  end.

(** [typeof v === "string"], with the string when it holds. *)
Definition as_string (v : value) : option jstring :=
  match v with JStr s => Some s | _ => None end.

(** [Array.isArray(v)], with the elements when it holds. *)
Definition as_array (v : value) : option (list value) :=
  match v with JArr items => Some items | _ => None end.

(** [v == null]: what [??] and [?.] test. *)
Definition nullish (v : value) : bool :=
  match v with JUndefined | JNull => true | _ => false end.

Fixpoint lookup (key : jstring) (fields : list (jstring * value)) : value :=
  match fields with
  | [] => JUndefined
  | (k, v) :: rest => if JsString.eqb k key then v else lookup key rest
  end.

(** [base.key] for the property names the relay reads (text, content,
    value, id, status, data, role, created_at, message, threadId): none
    of them is an own or inherited property of a primitive or an array,
    so only a plain object can answer, and reading from null or
    undefined raises a TypeError. *)
Definition get_prop (base : value) (key : jstring) : outcome value :=
  match base with
  | JUndefined | JNull => Throw (TypeError base key)
  | JObj fields => Ok (lookup key fields)
  | _ => Ok JUndefined
  end.

(** [base?.key] *)
Definition get_prop_opt (base : value) (key : jstring) : outcome value :=
  if nullish base then Ok JUndefined else get_prop base key.

(** [a ?? b] with [b] already evaluated. *)
Definition coalesce (a b : value) : value := if nullish a then b else a.

Definition bind {A B} (c : outcome A) (k : A -> outcome B) : outcome B :=
  match c with
  | Ok a => k a
  | Throw e => Throw e
  | Diverge => Diverge
  end.

(** [xs.map(f)] for a callback that may throw. *)
Definition mapM {A B} (f : A -> outcome B) : list A -> outcome (list B) :=
  fix go (xs : list A) : outcome (list B) :=
    match xs with
    | [] => Ok []
    | x :: rest =>
        bind (f x) (fun y => bind (go rest) (fun ys => Ok (y :: ys)))
    end.

(** Nesting depth of a payload: the recursion depth its traversal needs. *)
Fixpoint depth (v : value) : nat :=
  match v with
  | JArr items => S (fold_right (fun x d => Nat.max (depth x) d) 0 items)
  | JObj fields =>
      S (fold_right (fun kv d => Nat.max (depth (snd kv)) d) 0 fields)
  | _ => 0
  end.

End Js.
Import Js.

Notation "x <- c ;; k" := (Js.bind c (fun x => k))
  (at level 61, c at next level, right associativity).

(** ** azureFoundryClient.ts: content normalisation *)

Module Normalise.

(** The callback of [raw.map(...)] in the array branch. *)
Definition chunk_text (chunk : value) : outcome jstring :=
  if negb (truthy chunk) then Ok []
  else match as_string chunk with
  | Some s => Ok s
  | None =>
      t <- get_prop chunk (js "text") ;;
      match as_string t with
      | Some s => Ok s
      | None =>
          c <- get_prop chunk (js "content") ;;
          match as_string c with
          | Some s => Ok s
          | None =>
              v <- get_prop chunk (js "value") ;;
              match as_string v with
              | Some s => Ok s
              | None => Ok []
              end
          end
      end
  end.

(** One activation of [normaliseContent]; [self] is the recursive call. *)
Definition normaliseContent_body
    (self : value -> outcome jstring) (raw : value) : outcome jstring :=
  match as_string raw with
  | Some s => Ok s
  | None =>
      if negb (truthy raw) then Ok []
      else match as_array raw with
      | Some chunks =>
          texts <- mapM chunk_text chunks ;;
          Ok (join LF (filter nonempty texts))
      | None =>
          t <- get_prop raw (js "text") ;;
          match as_string t with
          | Some s => Ok s
          | None =>
              match as_array t with
              | Some items =>
                  texts <- mapM self items ;;
                  Ok (join LF texts)
              | None => Ok []
              end
          end
      end
  end.

(** [AzureFoundryClient.normaliseContent] on a call stack with room for
    [frames] nested activations of it, each counted with the frames of
    the [map] that calls it: the function calls itself once for every
    level of text arrays in the payload, and the activation that finds
    no room throws a RangeError, which nothing catches on the way out. *)
Fixpoint normaliseContent (frames : nat) (raw : value) : outcome jstring :=
  match frames with
  | O => Throw RangeError
  | S frames' => normaliseContent_body (normaliseContent frames') raw
  end.


(** The rule of the array branch on its own: map every chunk, drop the
    empty results, join with a line feed. *)
Definition join_chunks (texts : list jstring) : jstring :=
  join LF (filter nonempty texts).

(** The specification's wording for an object whose text is an array:
    every element is normalised, and the results go through the
    chunk-joining rule of the array branch. *)
Definition spec_text_array_rule (frames : nat) (items : list value)
    : outcome jstring :=
  texts <- mapM (normaliseContent frames) items ;;
  Ok (join_chunks texts).

End Normalise.
Import Normalise.


(** ** What the client awaits: HTTP, tokens, timers, the clock *)

Module Http.

Record Headers : Type := {
  Authorization : jstring;
  ContentType : jstring
}.

Inductive Method : Type := GET | POST.

(** A request as handed to [fetch].  [body] is the object given to
    [JSON.stringify], kept unserialised. *)
Record Request : Type := {
  method : Method;
  url : jstring;
  headers : Headers;
  body : option value
}.

(** A response: its status code, what [response.text()] yields and what
    [response.json()] yields (a payload, or the message of the
    SyntaxError it rejects with). *)
Record Response : Type := {
  status : N;
  text : jstring;
  parsed : value + jstring
}.

(** [response.ok] *)
Definition ok (r : Response) : bool :=
  ((200 <=? status r) && (status r <=? 299))%N.

Inductive FetchResult : Type :=
| Responded (r : Response)
| NetworkError (reason : jstring).

(** What [credential.getToken(scope)] settles to. *)
Inductive TokenResult : Type :=
| Token (token : jstring)
| NoToken
| AuthFailure (reason : jstring).

End Http.
Import Http.

(** The environment of one process: every answer the collaborators give,
    indexed by the order of the calls, how long each one takes, and the
    room the engine's call stack has, in nested activations of
    [normaliseContent], where [mapMessage] calls it. *)
Record World : Type := {
  stackRoom : nat;
  getToken : nat -> TokenResult;
  tokenLatency : nat -> Z;
  respond : nat -> Request -> FetchResult;
  fetchLatency : nat -> Z;
  timerLag : nat -> Z;
  uuid : nat -> jstring;
  isoString : Z -> jstring;
  numberToString : spec_float -> jstring
}.

Inductive Event : Type :=
| TokenAcquired (k : nat)
| Fetched (k : nat) (req : Request)
| Slept (ms : Z).

(** The mutable part: the clock in milliseconds, how many calls of each
    kind were made, and the chronological log of effects. *)
Record State : Type := {
  clock : Z;
  tokenCalls : nat;
  fetchCalls : nat;
  timerCalls : nat;
  uuidCalls : nat;
  log : list Event
}.

Definition initial : State :=
  {| clock := 0; tokenCalls := 0; fetchCalls := 0; timerCalls := 0;
     uuidCalls := 0; log := [] |}.

Module Async.

(** An awaited computation: it may read and advance the state and
    settles to a value, an exception or nothing. *)
Definition M (A : Type) : Type := State -> outcome A * State.

Definition ret {A} (a : A) : M A := fun s => (Ok a, s).

Definition throw {A} (e : exn) : M A := fun s => (Throw e, s).

Definition diverge {A} : M A := fun s => (Diverge, s).

Definition lift {A} (c : outcome A) : M A := fun s => (c, s).

Definition bind {A B} (c : M A) (k : A -> M B) : M B :=
  fun s =>
    match c s with
    | (Ok a, s') => k a s'
    | (Throw e, s') => (Throw e, s')
    | (Diverge, s') => (Diverge, s')
    end.

(** [xs.map(f)] for an effectful callback, left to right. *)
Definition mapM {A B} (f : A -> M B) : list A -> M (list B) :=
  fix go (xs : list A) : M (list B) :=
    match xs with
    | [] => ret []
    | x :: rest =>
        bind (f x) (fun y => bind (go rest) (fun ys => ret (y :: ys)))
    end.

Section Effects.
Variable w : World.

(** [Date.now()] *)
Definition now : M Z := fun s => (Ok (clock s), s).

(** The state once the [k]-th token acquisition has settled. *)
Definition after_acquire (s : State) : State :=
  {| clock := clock s + tokenLatency w (tokenCalls s);
     tokenCalls := S (tokenCalls s);
     fetchCalls := fetchCalls s;
     timerCalls := timerCalls s;
     uuidCalls := uuidCalls s;
     log := log s ++ [TokenAcquired (tokenCalls s)] |}.

(** [await credential.getToken(scope)] *)
Definition acquire : M TokenResult := fun s =>
  match getToken w (tokenCalls s) with
  | AuthFailure reason => (Throw (Rejected reason), after_acquire s)
  | r => (Ok r, after_acquire s)
  end.

(** The state once the [k]-th fetch has settled. *)
Definition after_fetch (req : Request) (s : State) : State :=
  {| clock := clock s + fetchLatency w (fetchCalls s);
     tokenCalls := tokenCalls s;
     fetchCalls := S (fetchCalls s);
     timerCalls := timerCalls s;
     uuidCalls := uuidCalls s;
     log := log s ++ [Fetched (fetchCalls s) req] |}.

(** [await fetch(url, init)] *)
Definition fetch (req : Request) : M Response := fun s =>
  match respond w (fetchCalls s) req with
  | Responded r => (Ok r, after_fetch req s)
  | NetworkError reason => (Throw (Rejected reason), after_fetch req s)
  end.

(** The state once a timer of [ms] milliseconds has fired: not
    before [ms] have passed, and [timerLag] later than that. *)
Definition after_sleep (ms : Z) (s : State) : State :=
  {| clock := clock s + ms + timerLag w (timerCalls s);
     tokenCalls := tokenCalls s;
     fetchCalls := fetchCalls s;
     timerCalls := S (timerCalls s);
     uuidCalls := uuidCalls s;
     log := log s ++ [Slept ms] |}.

(** [await new Promise((resolve) => setTimeout(resolve, ms))] *)
Definition sleep (ms : Z) : M unit := fun s => (Ok tt, after_sleep ms s).

(** [randomUUID()] *)
Definition randomUUID : M jstring := fun s =>
  (Ok (uuid w (uuidCalls s)),
   {| clock := clock s;
      tokenCalls := tokenCalls s;
      fetchCalls := fetchCalls s;
      timerCalls := timerCalls s;
      uuidCalls := S (uuidCalls s);
      log := log s |}).

(** [new Date().toISOString()] *)
Definition nowISO : M jstring := fun s => (Ok (isoString w (clock s)), s).

(** [await response.json()] *)
Definition json (r : Response) : M value :=
  match parsed r with
  | inl v => ret v
  | inr message => throw (SyntaxError message)
  end.

(** What a template literal prints for [${v}]. *)
Fixpoint toString (v : value) : jstring :=
  match v with
  | JUndefined => js "undefined"
  | JNull => js "null"
  | JBool true => js "true"
  | JBool false => js "false"
  | JNum x => numberToString w x
  | JStr s => s
  | JArr items =>
      join (js ",")
        (List.map (fun x => if nullish x then [] else toString x) items)
  | JObj _ => js "[object Object]"
  end.

End Effects.

End Async.
Import Async.

Notation "x <~ c ;; k" := (Async.bind c (fun x => k))
  (at level 61, c at next level, right associativity).

(** ** config.ts *)

Record AzureConfig : Type := {
  AZURE_AI_FOUNDRY_ENDPOINT : jstring;
  AZURE_AI_FOUNDRY_PROJECT : jstring;
  AZURE_AI_FOUNDRY_AGENT_ID : jstring;
  AZURE_TENANT_ID : jstring;
  AZURE_CLIENT_ID : jstring;
  AZURE_CLIENT_SECRET : jstring
}.

Record AppConfig : Type := {
  PORT : N;
  LOG_LEVEL : jstring;
  ALLOWED_ORIGINS : list jstring;
  azure : option AzureConfig
}.

(** ** azureFoundryClient.ts: the client *)

Module Foundry.

(** [FoundryMessage].  The interface declares strings; [id], [role] and
    [createdAt] hold whatever the remote payload carried. *)
Record Message : Type := {
  id : value;
  role : value;
  content : jstring;
  createdAt : value
}.

(** What [sendMessage] resolves to. *)
Record Turn : Type := {
  threadId : value;
  messages : list Message;
  run : value
}.

End Foundry.

Module AzureFoundryClient.

Definition API_VERSION : jstring := js "2025-05-01".

Definition POLL_INTERVAL_MS : Z := 800.

Definition DEFAULT_TIMEOUT_MS : Z := 120000.

Definition TIMED_OUT : jstring :=
  js "Timed out while waiting for the agent response".

(** The statuses on which [pollRun] keeps waiting. *)
Definition in_progress_set : list jstring := [js "queued"; js "in_progress"].

(** [set.includes(v)] for an array of strings. *)
Definition includes (set : list jstring) (v : value) : bool :=
  match v with
  | JStr s => existsb (JsString.eqb s) set
  | _ => false
  end.

(** The test that ends the poll loop:
    [!run.status || !["queued", "in_progress"].includes(run.status)]. *)
Definition terminal (status : value) : bool :=
  negb (truthy status) || negb (includes in_progress_set status).

(** The header set [authHeaders] returns for an access token. *)
Definition bearer (token : jstring) : Headers :=
  {| Authorization := js "Bearer " ++ token;
     ContentType := js "application/json" |}.

Section Client.
Variable w : World.
Variable config : AzureConfig.

Definition baseUrl : jstring :=
  AZURE_AI_FOUNDRY_ENDPOINT config ++ js "/api/projects/"
    ++ AZURE_AI_FOUNDRY_PROJECT config.

Definition authHeaders : M Headers :=
  token <~ acquire w ;;
  match token with
  | Token t => ret (bearer t)
  | _ => throw (Error (js "Failed to acquire Azure access token"))
  end.

Definition url (path : jstring) : jstring :=
  let separator :=
    match path with
    | 47%N :: _ => []
    | _ => js "/"
    end in
  let query := if existsb (N.eqb 63) path then js "&" else js "?" in
  baseUrl ++ separator ++ path ++ query ++ js "api-version=" ++ API_VERSION.

Definition mapMessage (message : value) : M Foundry.Message :=
  mid <~ lift (get_prop message (js "id")) ;;
  id' <~ (if nullish mid
          then (u <~ randomUUID w ;; ret (JStr u))
          else ret mid) ;;
  mrole <~ lift (get_prop message (js "role")) ;;
  mcontent <~ lift (get_prop message (js "content")) ;;
  content' <~ lift (normaliseContent (stackRoom w) mcontent) ;;
  mcreated <~ lift (get_prop message (js "created_at")) ;;
  created' <~ (if nullish mcreated
               then (t <~ nowISO w ;; ret (JStr t))
               else ret mcreated) ;;
  ret {| Foundry.id := id';
         Foundry.role := coalesce mrole (JStr (js "assistant"));
         Foundry.content := content';
         Foundry.createdAt := created' |}.

Definition ensureThread (threadId : value) : M value :=
  if truthy threadId then ret threadId
  else
    headers <~ authHeaders ;;
    response <~ fetch w {| method := POST;
                           Http.url := url (js "/threads");
                           headers := headers;
                           body := None |} ;;
    if negb (ok response)
    then throw (Error (js "Failed to create thread ("
                         ++ of_N (status response) ++ js ")"))
    else
      body <~ json response ;;
      bid <~ lift (get_prop_opt body (js "id")) ;;
      if negb (truthy bid)
      then throw (Error (js "Thread creation response did not include an id"))
      else ret bid.

Definition appendUserMessage (threadId : value) (content : jstring) : M unit :=
  headers <~ authHeaders ;;
  response <~ fetch w
    {| method := POST;
       Http.url := url (js "/threads/" ++ toString w threadId ++ js "/messages");
       headers := headers;
       body := Some (JObj [(js "role", JStr (js "user"));
                           (js "content", JStr content)]) |} ;;
  if negb (ok response)
  then throw (Error (js "Failed to append user message ("
                       ++ of_N (status response) ++ js "): "
                       ++ text response))
  else ret tt.

Definition startRun (threadId : value) : M value :=
  headers <~ authHeaders ;;
  response <~ fetch w
    {| method := POST;
       Http.url := url (js "/threads/" ++ toString w threadId ++ js "/runs");
       headers := headers;
       body := Some (JObj [(js "assistant_id",
                            JStr (AZURE_AI_FOUNDRY_AGENT_ID config))]) |} ;;
  if negb (ok response)
  then throw (Error (js "Failed to start run ("
                       ++ of_N (status response) ++ js "): "
                       ++ text response))
  else json response.

(** The request of one status check. *)
Definition inspectRun (threadId runId : value) (headers : Headers) : Request :=
  {| method := GET;
     Http.url := url (js "/threads/" ++ toString w threadId
                        ++ js "/runs/" ++ toString w runId);
     headers := headers;
     body := None |}.

(** The [while] loop of [pollRun]; [fuel] bounds the iterations. *)
Fixpoint pollLoop (fuel : nat) (threadId runId : value) (timeoutMs : Z)
    (start : Z) (headers : Headers) : M value :=
  match fuel with
  | O => diverge
  | S fuel' =>
      t <~ now ;;
      if (t - start <? timeoutMs)%Z then
        response <~ fetch w (inspectRun threadId runId headers) ;;
        if negb (ok response)
        then throw (Error (js "Failed to inspect run ("
                             ++ of_N (status response) ++ js "): "
                             ++ text response))
        else
          run <~ json response ;;
          st <~ lift (get_prop run (js "status")) ;;
          if terminal st then ret run
          else
            _ <~ sleep w POLL_INTERVAL_MS ;;
            pollLoop fuel' threadId runId timeoutMs start headers
      else throw (Error TIMED_OUT)
  end.

Definition pollRun (fuel : nat) (threadId runId : value) (timeoutMs : Z)
    : M value :=
  start <~ now ;;
  headers <~ authHeaders ;;
  pollLoop fuel threadId runId timeoutMs start headers.

Definition listMessages (threadId : value) : M (list Foundry.Message) :=
  headers <~ authHeaders ;;
  response <~ fetch w
    {| method := GET;
       Http.url := url (js "/threads/" ++ toString w threadId
                          ++ js "/messages?order=asc");
       headers := headers;
       body := None |} ;;
  if negb (ok response)
  then throw (Error (js "Failed to fetch messages ("
                       ++ of_N (status response) ++ js "): "
                       ++ text response))
  else
    payload <~ json response ;;
    pdata <~ lift (get_prop_opt payload (js "data")) ;;
    let data := match as_array pdata with
                | Some items => items
                | None => []
                end in
    Async.mapM mapMessage data.

Definition sendMessage (fuel : nat) (content : jstring) (threadId : value)
    : M Foundry.Turn :=
  resolvedThreadId <~ ensureThread threadId ;;
  _ <~ appendUserMessage resolvedThreadId content ;;
  run <~ startRun resolvedThreadId ;;
  runId <~ lift (get_prop run (js "id")) ;;
  finalRun <~ pollRun fuel resolvedThreadId runId DEFAULT_TIMEOUT_MS ;;
  messages <~ listMessages resolvedThreadId ;;
  ret {| Foundry.threadId := resolvedThreadId;
         Foundry.messages := messages;
         Foundry.run := finalRun |}.

End Client.

End AzureFoundryClient.

(** ** index.ts: the chat route *)

Module Server.

(** A validation issue of the schema library: where, and which check.
    [TooSmall] carries the message the schema gives, if it gives one. *)
Inductive Issue : Type :=
| InvalidType (path : list jstring)
| TooSmall (path : list jstring) (message : option jstring).

(** [z.infer<typeof chatPayloadSchema>]; [threadId] is a string or
    undefined. *)
Record ChatPayload : Type := {
  message : jstring;
  threadId : value
}.

(** [z.string().trim().min(1, message)] on the field [field]. *)
Definition string_trim_min1 (field : jstring) (message : option jstring)
    (v : value) : jstring + list Issue :=
  match v with
  | JStr s =>
      let t := trim s in
      if (1 <=? List.length t)%nat then inl t
      else inr [TooSmall [field] message]
  | _ => inr [InvalidType [field]]
  end.

(** [.optional()] around it: undefined passes through. *)
Definition optional_string_trim_min1 (field : jstring) (v : value)
    : value + list Issue :=
  match v with
  | JUndefined => inl JUndefined
  | _ =>
      match string_trim_min1 field None v with
      | inl t => inl (JStr t)
      | inr issues => inr issues
      end
  end.

Definition issues_of {A} (r : A + list Issue) : list Issue :=
  match r with inl _ => [] | inr issues => issues end.

(** [chatPayloadSchema.safeParse(req.body)] *)
Definition chatPayloadSchema (reqBody : value) : ChatPayload + list Issue :=
  match reqBody with
  | JObj fields =>
      let m := string_trim_min1 (js "message")
                 (Some (js "Message cannot be empty"))
                 (lookup (js "message") fields) in
      let t := optional_string_trim_min1 (js "threadId")
                 (lookup (js "threadId") fields) in
      match m, t with
      | inl m', inl t' => inl {| message := m'; threadId := t' |}
      | _, _ => inr (issues_of m ++ issues_of t)
      end
  | _ => inr [InvalidType []]
  end.

(** The JSON bodies the route sends. *)
Inductive Body : Type :=
| ErrorOnly (error : jstring)
| InvalidPayload (error : jstring) (details : list Issue)
| RequestFailed (error : jstring) (details : jstring)
| Chat (threadId : value) (messages : list Foundry.Message).

Record HttpResponse : Type := {
  status : N;
  body : Body
}.

(** [error.message] of what the client can throw (every exception of
    the model is an [Error] instance). *)
Definition exn_message (e : exn) : jstring :=
  match e with
  | Error message => message
  | TypeError base key =>
      js "Cannot read properties of "
        ++ (match base with JNull => js "null" | _ => js "undefined" end)
        ++ js " (reading '" ++ key ++ js "')"
  | SyntaxError message => message
  | Rejected reason => reason
  | RangeError => js "Maximum call stack size exceeded"
  end.

(** [try { body } catch (error) { handler(error) }] *)
Definition try_catch {A} (c : M A) (handler : exn -> M A) : M A :=
  fun s =>
    match c s with
    | (Throw e, s') => handler e s'
    | r => r
    end.

Section Route.
Variable w : World.
Variable config : AppConfig.

(** [config.azure ? new AzureFoundryClient(config.azure) : null];
    the client is its configuration. *)
Definition azureClient : option AzureConfig := azure config.

(** [app.post("/api/chat", ...)] on the parsed request body. *)
Definition postChat (fuel : nat) (reqBody : value) : M HttpResponse :=
  match azureClient with
  | None =>
      ret {| status := 503;
             body := ErrorOnly
               (js "Azure AI Foundry credentials are not configured.") |}
  | Some client =>
      match chatPayloadSchema reqBody with
      | inr issues =>
          ret {| status := 400;
                 body := InvalidPayload (js "Invalid payload") issues |}
      | inl data =>
          try_catch
            (result <~ AzureFoundryClient.sendMessage w client fuel
                         (message data) (threadId data) ;;
             ret {| status := 200;
                    body := Chat (Foundry.threadId result)
                                 (Foundry.messages result) |})
            (fun error =>
               ret {| status := 502;
                      body := RequestFailed
                        (js "Azure agent request failed")
                        (exn_message error) |})
      end
  end.

End Route.

End Server.

(** ** Reading the log of a turn *)

Module Trace.

(** How one status check of the poll loop is classified. *)
Definition waiting (answer : FetchResult) : bool :=
  match answer with
  | Responded r =>
      ok r &&
      match parsed r with
      | inl run =>
          match get_prop run (js "status") with
          | Ok st => negb (AzureFoundryClient.terminal st)
          | _ => false
          end
      | inr _ => false
      end
  | NetworkError _ => false
  end.

(** An answer to a status check that the client cannot read: the
    connection failed, the body is not JSON, or the run is null. *)
Definition unreadable (answer : FetchResult) : option exn :=
  match answer with
  | NetworkError reason => Some (Rejected reason)
  | Responded r =>
      if ok r then
        match parsed r with
        | inr message => Some (SyntaxError message)
        | inl run =>
            match get_prop run (js "status") with
            | Throw e => Some e
            | _ => None
            end
        end
      else None
  end.

(** [n] rounds of the poll loop that kept waiting: a status check and
    the pause after it, the checks numbered from [first]. *)
Fixpoint poll_rounds (req : Request) (first n : nat) : list Event :=
  match n with
  | O => []
  | S n' =>
      Fetched first req
        :: Slept AzureFoundryClient.POLL_INTERVAL_MS
        :: poll_rounds req (S first) n'
  end.

Definition headers_eqb (a b : Headers) : bool :=
  JsString.eqb (Authorization a) (Authorization b)
  && JsString.eqb (ContentType a) (ContentType b).

(** The headers [authHeaders] builds from an acquisition. *)
Definition headers_of (r : TokenResult) : option Headers :=
  match r with
  | Token t => Some (AzureFoundryClient.bearer t)
  | _ => None
  end.

(** Walks a log and checks every request against the token it may use.
    [held] is the header set of the latest acquisition and [armed] says
    whether it may still be sent.  A request must carry [held] while it
    is armed, and it disarms it.  With [rearm_on_pause] a pause of the
    poll loop arms it again; without, only a new acquisition does. *)
Fixpoint token_use (w : World) (rearm_on_pause : bool)
    (held : option Headers) (armed : bool) (evs : list Event) : bool :=
  match evs with
  | [] => true
  | TokenAcquired k :: rest =>
      token_use w rearm_on_pause (headers_of (getToken w k)) true rest
  | Fetched _ req :: rest =>
      match held with
      | Some h =>
          armed && headers_eqb (headers req) h
          && token_use w rearm_on_pause held false rest
      | None => false
      end
  | Slept _ :: rest =>
      token_use w rearm_on_pause held (armed || rearm_on_pause) rest
  end.

(** Every request carries a token acquired for that request alone. *)
Definition fresh_per_call (w : World) (evs : list Event) : bool :=
  token_use w false None false evs.

(** Every request carries the token its operation acquired: one request
    per acquisition, except that the status checks of one poll loop
    share the acquisition made before the loop. *)
Definition fresh_per_operation (w : World) (evs : list Event) : bool :=
  token_use w true None false evs.

(** The events a computation appends to the log. *)
Definition new_events (before after : State) : list Event :=
  skipn (List.length (log before)) (log after).

End Trace.
Import Trace.

(** ** A sample deployment, for concrete runs *)

Module Sample.

Definition azureConfig : AzureConfig :=
  {| AZURE_AI_FOUNDRY_ENDPOINT := js "https://foundry.example";
     AZURE_AI_FOUNDRY_PROJECT := js "relay";
     AZURE_AI_FOUNDRY_AGENT_ID := js "asst_1";
     AZURE_TENANT_ID := js "tenant";
     AZURE_CLIENT_ID := js "client";
     AZURE_CLIENT_SECRET := js "secret" |}.

Definition configured : AppConfig :=
  {| PORT := 3000; LOG_LEVEL := js "info"; ALLOWED_ORIGINS := [];
     azure := Some azureConfig |}.

Definition unconfigured : AppConfig :=
  {| PORT := 3000; LOG_LEVEL := js "info"; ALLOWED_ORIGINS := [];
     azure := None |}.

Definition reply (payload : value) : FetchResult :=
  Responded {| Http.status := 200; text := []; parsed := inl payload |}.

Definition run_with (st : value) : value :=
  JObj [(js "id", JStr (js "run_1")); (js "status", st)].

(** A remote that creates thread_1, accepts the message, queues run_1,
    reports it in progress once, then completed, and lists two
    messages, the second without id, role or created_at. *)
Definition remote (k : nat) (req : Request) : FetchResult :=
  match k with
  | 0 => reply (JObj [(js "id", JStr (js "thread_1"))])
  | 1 => reply (JObj [])
  | 2 => reply (run_with (JStr (js "queued")))
  | 3 => reply (run_with (JStr (js "in_progress")))
  | 4 => reply (run_with (JStr (js "completed")))
  | _ => reply (JObj [(js "data",
           JArr [JObj [(js "id", JStr (js "msg_1"));
                       (js "role", JStr (js "user"));
                       (js "content", JStr (js "hi"));
                       (js "created_at", JStr (js "2025-05-01T00:00:00.000Z"))];
                 JObj [(js "content",
                        JArr [JObj [(js "text", JStr (js "hello"))]])]])])
  end.

(** Tokens t0, t1, ... and identifiers u0, u1, ...; every call takes a
    few milliseconds and the call stack has room for a thousand nested
    calls.  Numbers and dates print as fixed stand-ins. *)
Definition world : World :=
  {| stackRoom := 1000;
     getToken := fun k => Token (js "t" ++ of_N (N.of_nat k));
     tokenLatency := fun _ => 5%Z;
     respond := remote;
     fetchLatency := fun _ => 20%Z;
     timerLag := fun _ => 1%Z;
     uuid := fun k => js "u" ++ of_N (N.of_nat k);
     isoString := fun t => js "T" ++ of_N (Z.to_N t);
     numberToString := fun _ => js "0" |}.


(** A remote whose run never leaves in_progress. *)
Definition stuck : World :=
  {| stackRoom := stackRoom world;
     getToken := getToken world;
     tokenLatency := tokenLatency world;
     respond := fun _ _ => reply (run_with (JStr (js "in_progress")));
     fetchLatency := fetchLatency world;
     timerLag := timerLag world;
     uuid := uuid world;
     isoString := isoString world;
     numberToString := numberToString world |}.

(** A remote that answers every status check with a run that has no
    status. *)
Definition statusless : World :=
  {| stackRoom := stackRoom world;
     getToken := getToken world;
     tokenLatency := tokenLatency world;
     respond := fun _ _ => reply (JObj [(js "id", JStr (js "run_1"))]);
     fetchLatency := fetchLatency world;
     timerLag := timerLag world;
     uuid := uuid world;
     isoString := isoString world;
     numberToString := numberToString world |}.

(** One turn against the sample remote, from a fresh process. *)
Definition turn : outcome Foundry.Turn * State :=
  AzureFoundryClient.sendMessage world azureConfig 151 (js "hello")
    JUndefined initial.

Definition blank : value := JObj [(js "message", JStr (js "   "))].

Definition hello : value := JObj [(js "message", JStr (js " hello "))].

End Sample.

(** ** config.ts: loading the configuration *)

Module Config.

(** [process.env]: the variables that are set, each with its string. *)
Definition Env := list (jstring * jstring).

(** [env[name]]: the string, or nothing when the variable is unset. *)
Fixpoint getenv (name : jstring) (env : Env) : option jstring :=
  match env with
  | [] => None
  | (k, v) :: rest => if JsString.eqb k name then Some v else getenv name rest
  end.

(** [s.split(sep)] for a separator of one code unit: the pieces between
    the separators, empty pieces included; the empty string gives one
    empty piece. *)
Fixpoint split (sep : N) (s : jstring) : list jstring :=
  match s with
  | [] => [[]]
  | c :: rest =>
      if (c =? sep)%N then [] :: split sep rest
      else match split sep rest with
           | piece :: pieces => (c :: piece) :: pieces
           | [] => [[c]]
           end
  end.

Definition COMMA : N := 44.

(** The transform of ALLOWED_ORIGINS:
    [value?.split(",").map((origin) => origin.trim()).filter(Boolean) ?? []]. *)
Definition allowedOrigins (value : option jstring) : list jstring :=
  match value with
  | Some v => filter nonempty (List.map trim (split COMMA v))
  | None => []
  end.

(** [Number.isInteger(x)], with the integer when it holds.  A finite
    float is [m * 2^e] with the sign apart. *)
Definition integer_of (x : spec_float) : option Z :=
  match x with
  | S754_zero _ => Some 0%Z
  | S754_finite negative m e =>
      let magnitude :=
        match e with
        | Z0 => Some (Z.pos m)
        | Zpos p => Some (Z.pos m * 2 ^ Z.pos p)%Z
        | Zneg p =>
            if (Z.pos m mod 2 ^ Z.pos p =? 0)%Z
            then Some (Z.pos m / 2 ^ Z.pos p)%Z
            else None
        end in
      match magnitude with
      | Some z => Some (if negative then (- z)%Z else z)
      | None => None
      end
  | S754_infinity _ | S754_nan => None
  end.

(** What [loadConfig] settles to: the configuration, or the ZodError that
    [baseSchema.parse] throws, with the variable it is about. *)
Inductive Loaded : Type :=
| Config (c : AppConfig)
| ZodError (path : jstring).

Section Schemas.

(** [Number(s)] and the URL check of the schema library, both taken as
    the runtime gives them. *)
Variable toNumber : jstring -> spec_float.
Variable isUrl : jstring -> bool.

(** [z.coerce.number().int().min(1).max(65535).default(3000)]: the port,
    or nothing when a check fails. *)
Definition port (value : option jstring) : option N :=
  match value with
  | None => Some 3000%N
  | Some v =>
      match integer_of (toNumber v) with
      | Some z =>
          if ((1 <=? z) && (z <=? 65535))%Z then Some (Z.to_N z) else None
      | None => None
      end
  end.

(** [z.string().default("info")] *)
Definition logLevel (value : option jstring) : jstring :=
  match value with
  | Some v => v
  | None => js "info"
  end.

(** [z.string().min(1)] on a variable *)
Definition min1 (value : option jstring) : option jstring :=
  match value with
  | Some v => if nonempty v then Some v else None
  | None => None
  end.

(** [z.string().url()] on a variable *)
Definition url (value : option jstring) : option jstring :=
  match value with
  | Some v => if isUrl v then Some v else None
  | None => None
  end.

(** [azureSchema.safeParse(env)]: the credential group when all six
    members pass. *)
Definition azureSchema (env : Env) : option AzureConfig :=
  match url (getenv (js "AZURE_AI_FOUNDRY_ENDPOINT") env),
        min1 (getenv (js "AZURE_AI_FOUNDRY_PROJECT") env),
        min1 (getenv (js "AZURE_AI_FOUNDRY_AGENT_ID") env),
        min1 (getenv (js "AZURE_TENANT_ID") env),
        min1 (getenv (js "AZURE_CLIENT_ID") env),
        min1 (getenv (js "AZURE_CLIENT_SECRET") env) with
  | Some endpoint, Some project, Some agent, Some tenant, Some client,
    Some secret =>
      Some {| AZURE_AI_FOUNDRY_ENDPOINT := endpoint;
              AZURE_AI_FOUNDRY_PROJECT := project;
              AZURE_AI_FOUNDRY_AGENT_ID := agent;
              AZURE_TENANT_ID := tenant;
              AZURE_CLIENT_ID := client;
              AZURE_CLIENT_SECRET := secret |}
  | _, _, _, _, _, _ => None
  end.

(** [loadConfig(env)] *)
Definition loadConfig (env : Env) : Loaded :=
  match port (getenv (js "PORT") env) with
  | None => ZodError (js "PORT")
  | Some p =>
      Config {| PORT := p;
                LOG_LEVEL := logLevel (getenv (js "LOG_LEVEL") env);
                ALLOWED_ORIGINS :=
                  allowedOrigins (getenv (js "ALLOWED_ORIGINS") env);
                azure := azureSchema env |}
  end.

End Schemas.

End Config.

(** ** index.ts: the other routes and the CORS choice *)

Module Routes.

(** What is handed to [cors(...)]: nothing, or the allowed origins with
    credentials. *)
Inductive CorsOptions : Type :=
| AnyOrigin
| Origins (origin : list jstring) (credentials : bool).

(** [corsOrigins && corsOrigins.length > 0 ? cors({...}) : cors()] *)
Definition corsOptions (config : AppConfig) : CorsOptions :=
  match ALLOWED_ORIGINS config with
  | [] => AnyOrigin
  | origins => Origins origins true
  end.

(** The body of [GET /healthz]. *)
Record Health : Type := {
  status : jstring;
  azureConfigured : bool
}.

(** The body of [GET /]. *)
Record Descriptor : Type := {
  name : jstring;
  descriptor_status : jstring;
  descriptor_azureConfigured : bool;
  health_endpoint : jstring;
  chat_endpoint : jstring
}.

(** [Boolean(azureClient)] *)
Definition configured (config : AppConfig) : bool :=
  match Server.azureClient config with
  | Some _ => true
  | None => false
  end.

Definition getHealthz (config : AppConfig) : Health :=
  {| status := js "ok"; azureConfigured := configured config |}.

Definition getRoot (config : AppConfig) : Descriptor :=
  {| name := js "Azure AI Foundry chat relay";
     descriptor_status := js "ok";
     descriptor_azureConfigured := configured config;
     health_endpoint := js "/healthz";
     chat_endpoint := js "/api/chat" |}.

(** The error-handling middleware: whatever was thrown, a bare 500. *)
Definition errorHandler (err : exn) : Server.HttpResponse :=
  {| Server.status := 500;
     Server.body := Server.ErrorOnly (js "Internal server error") |}.

End Routes.

(** ** App.tsx: submitting a message from the page *)

Module Web.

Record ChatMessage : Type := {
  id : jstring;
  role : jstring;
  content : jstring;
  createdAt : jstring
}.

Record ChatResponse : Type := {
  threadId : jstring;
  messages : list ChatMessage
}.

(** The state hooks of [App]. *)
Record AppState : Type := {
  input : jstring;
  currentThread : option jstring;
  shown : list ChatMessage;
  error : option jstring;
  loading : bool
}.

(** What [fetch("/api/chat", ...)] and [response.json()] settle to: a
    status code with the body read as a [ChatResponse] (or the message
    of the error that reading it throws: [json()] rejecting, or a body
    that is null), or the message of the error [fetch] rejects with. *)
Inductive Answer : Type :=
| Answered (status : N) (data : ChatResponse + jstring)
| Unreachable (message : jstring).

(** [s.startsWith(prefix)] *)
Fixpoint startsWith (s prefix : jstring) : bool :=
  match prefix, s with
  | [], _ => true
  | p :: prefix', c :: s' => (c =? p)%N && startsWith s' prefix'
  | _ :: _, [] => false
  end.

(** The object given to [JSON.stringify]: a null thread is sent as
    undefined, which leaves the key out. *)
Definition requestBody (trimmed : jstring) (thread : option jstring) : value :=
  JObj ((js "message", JStr trimmed)
          :: match thread with
             | Some t => [(js "threadId", JStr t)]
             | None => []
             end).

(** The [catch] and [finally] blocks: the error is shown, the optimistic
    messages are removed, loading ends. *)
Definition failed (st : AppState) (pending : list ChatMessage)
    (message : jstring) : AppState :=
  {| input := [];
     currentThread := currentThread st;
     shown := filter (fun m => negb (startsWith (id m) (js "local-"))) pending;
     error := Some message;
     loading := false |}.

(** [handleSubmit], from the state at the submit event to the state once
    the handler has settled.  [now] is [Date.now()], [iso] is
    [new Date().toISOString()], and [relay] answers the request body. *)
Definition handleSubmit (now : N) (iso : jstring) (relay : value -> Answer)
    (st : AppState) : AppState :=
  let trimmed := trim (input st) in
  if negb (nonempty trimmed) then st
  else
    let optimisticMessage :=
      {| id := js "local-" ++ of_N now;
         role := js "user";
         content := trimmed;
         createdAt := iso |} in
    let pending := shown st ++ [optimisticMessage] in
    match relay (requestBody trimmed (currentThread st)) with
    | Answered status data =>
        if ((200 <=? status) && (status <=? 299))%N then
          match data with
          | inl d =>
              {| input := [];
                 currentThread := Some (threadId d);
                 shown := messages d;
                 error := None;
                 loading := false |}
          | inr message => failed st pending message
          end
        else failed st pending
               (js "Request failed (" ++ of_N status ++ js ")")
    | Unreachable message => failed st pending message
    end.

(** The message of the error the [try] block throws for an answer, if it
    throws: the relay was not reached, it answered outside 200 to 299,
    or its body could not be read. *)
Definition failure (a : Answer) : option jstring :=
  match a with
  | Answered status data =>
      if ((200 <=? status) && (status <=? 299))%N then
        match data with
        | inl _ => None
        | inr message => Some message
        end
      else Some (js "Request failed (" ++ of_N status ++ js ")")
  | Unreachable message => Some message
  end.

End Web.

(** ** The requests of the steps of a turn *)

Module Requests.

Section Client.
Variable w : World.
Variable config : AzureConfig.

(** The request [appendUserMessage] sends. *)
Definition appendMessage (threadId : value) (content : jstring)
    (headers : Headers) : Request :=
  {| method := POST;
     Http.url := AzureFoundryClient.url config
                   (js "/threads/" ++ toString w threadId ++ js "/messages");
     Http.headers := headers;
     body := Some (JObj [(js "role", JStr (js "user"));
                         (js "content", JStr content)]) |}.

(** The request [startRun] sends. *)
Definition startRun (threadId : value) (headers : Headers) : Request :=
  {| method := POST;
     Http.url := AzureFoundryClient.url config
                   (js "/threads/" ++ toString w threadId ++ js "/runs");
     Http.headers := headers;
     body := Some (JObj [(js "assistant_id",
                          JStr (AZURE_AI_FOUNDRY_AGENT_ID config))]) |}.

End Client.

End Requests.

(** ** More sample deployments *)

(** The message of the failure when the credential gives no token:
    the one [authHeaders] throws for null, or the credential's own. *)
Definition no_token_message (r : TokenResult) : jstring :=
  match r with
  | AuthFailure reason => reason
  | _ => js "Failed to acquire Azure access token"
  end.

Module Cases.

(** The sample world with other answers from the credential and the
    remote. *)
Definition variant (tokens : nat -> TokenResult)
    (answers : nat -> Request -> FetchResult) : World :=
  {| stackRoom := stackRoom Sample.world;
     getToken := tokens;
     tokenLatency := tokenLatency Sample.world;
     respond := answers;
     fetchLatency := fetchLatency Sample.world;
     timerLag := timerLag Sample.world;
     uuid := uuid Sample.world;
     isoString := isoString Sample.world;
     numberToString := numberToString Sample.world |}.

(** A credential that resolves to null. *)
Definition locked : World :=
  variant (fun _ => NoToken) (respond Sample.world).

(** A remote that refuses every request with 500 and a detail. *)
Definition refusing : World :=
  variant (getToken Sample.world)
    (fun _ _ => Responded {| Http.status := 500; text := js "boom";
                             parsed := inr (js "Unexpected token") |}).

(** A remote whose answers are all the JSON value null. *)
Definition nulls : World :=
  variant (getToken Sample.world) (fun _ _ => Sample.reply JNull).

(** A credential that takes longer than the default deadline. *)
Definition slow_tokens : World :=
  {| stackRoom := stackRoom Sample.world;
     getToken := getToken Sample.world;
     tokenLatency := fun _ => 120000%Z;
     respond := respond Sample.world;
     fetchLatency := fetchLatency Sample.world;
     timerLag := timerLag Sample.world;
     uuid := uuid Sample.world;
     isoString := isoString Sample.world;
     numberToString := numberToString Sample.world |}.

(** A remote whose status check takes 200 s, longer than the default
    deadline, and then reports the run completed. *)
Definition slow_check : World :=
  {| stackRoom := stackRoom Sample.world;
     getToken := getToken Sample.world;
     tokenLatency := tokenLatency Sample.world;
     respond := fun _ _ => Sample.reply (Sample.run_with (JStr (js "completed")));
     fetchLatency := fun _ => 200000%Z;
     timerLag := timerLag Sample.world;
     uuid := uuid Sample.world;
     isoString := isoString Sample.world;
     numberToString := numberToString Sample.world |}.

(** One poll of run_1 against it with the default deadline, from a
    fresh process, and the status check that poll sends. *)
Definition late_poll : outcome value * State :=
  AzureFoundryClient.pollRun slow_check Sample.azureConfig 151
    (JStr (js "thread_1")) (JStr (js "run_1"))
    AzureFoundryClient.DEFAULT_TIMEOUT_MS initial.

Definition late_check : Request :=
  AzureFoundryClient.inspectRun slow_check Sample.azureConfig
    (JStr (js "thread_1")) (JStr (js "run_1"))
    (AzureFoundryClient.bearer (js "t0")).

(** The two messages of the sample remote, and the same with a null
    between them. *)
Definition two_messages : list value :=
  [JObj [(js "id", JStr (js "msg_1")); (js "content", JStr (js "hi"))];
   JObj [(js "content", JArr [JObj [(js "text", JStr (js "hello"))]])]].

Definition listing : World :=
  variant (getToken Sample.world)
    (fun _ _ => Sample.reply (JObj [(js "data", JArr two_messages)])).

Definition with_null : list value :=
  [JObj [(js "id", JStr (js "msg_1")); (js "content", JStr (js "hi"))];
   JNull;
   JObj [(js "content", JArr [JObj [(js "text", JStr (js "hello"))]])]].

Definition listing_null : World :=
  variant (getToken Sample.world)
    (fun _ _ => Sample.reply (JObj [(js "data", JArr with_null)])).

(** A chat request that continues thread_1. *)
Definition followup : value :=
  JObj [(js "message", JStr (js " again "));
        (js "threadId", JStr (js " thread_1 "))].

(** An environment with a port, two origins among blanks, and the whole
    credential group. *)
Definition env : Config.Env :=
  [(js "PORT", js "8080");
   (js "ALLOWED_ORIGINS", js " https://a.example , ,https://b.example,");
   (js "AZURE_AI_FOUNDRY_ENDPOINT", js "https://foundry.example");
   (js "AZURE_AI_FOUNDRY_PROJECT", js "relay");
   (js "AZURE_AI_FOUNDRY_AGENT_ID", js "asst_1");
   (js "AZURE_TENANT_ID", js "tenant");
   (js "AZURE_CLIENT_ID", js "client");
   (js "AZURE_CLIENT_SECRET", js "secret")].

(** Stand-ins for [Number] and the URL check, right on the sample
    values: 8080 for "8080", NaN otherwise; a URL starts with "https://". *)
Definition toNumber (s : jstring) : spec_float :=
  if JsString.eqb s (js "8080") then S754_finite false 8080 0 else S754_nan.

Definition isUrl (s : jstring) : bool :=
  Web.startsWith s (js "https://").

End Cases.

(** * Properties *)

Unset Implicit Arguments.

(** ** Strings and payloads *)

Lemma jstring_eqb_eq (a b : jstring) : JsString.eqb a b = true <-> a = b.
Proof.
  unfold JsString.eqb.
  destruct (list_eq_dec N.eq_dec a b); split; congruence.
Qed.

Lemma depth_lookup (key : jstring) (fields : list (jstring * value)) :
  depth (lookup key fields)
  <= fold_right (fun kv d => Nat.max (depth (snd kv)) d) 0 fields.
Proof.
  induction fields as [|[k v] rest IH]; simpl.
  - lia.
  - destruct (JsString.eqb k key); lia.
Qed.

Lemma depth_item (x : value) (items : list value) :
  In x items ->
  depth x <= fold_right (fun y d => Nat.max (depth y) d) 0 items.
Proof.
  induction items as [|y rest IH]; simpl; [tauto|].
  intros [->|Hin]; [lia|]. specialize (IH Hin). lia.
Qed.

Lemma mapM_total {A B} (f : A -> outcome B) (xs : list A) :
  (forall x, In x xs -> exists y, f x = Ok y) ->
  exists ys, Js.mapM f xs = Ok ys /\ List.length ys = List.length xs.
Proof.
  induction xs as [|x rest IH]; intros Hf; simpl.
  - now exists [].
  - destruct (Hf x (or_introl eq_refl)) as [y Hy].
    destruct IH as [ys [Hys Hlen]].
    { intros z Hz. apply Hf. now right. }
    rewrite Hy, Hys. simpl. exists (y :: ys). simpl. now rewrite Hlen.
Qed.


(** ** Content normalisation *)

Lemma chunk_text_total (chunk : value) : exists s, chunk_text chunk = Ok s.
Proof.
  unfold chunk_text.
  destruct (truthy chunk) eqn:Ht; simpl; [|now eexists].
  destruct chunk; simpl in *; try discriminate; try (now eexists).
  repeat match goal with
         | |- context [as_string ?v] => destruct (as_string v); [now eexists|]
         end.
  now eexists.
Qed.

Lemma normaliseContent_enough (frames : nat) :
  forall raw, depth raw < frames ->
  exists s, normaliseContent frames raw = Ok s.
Proof.
  induction frames as [|frames IH]; intros raw Hd; [lia|].
  simpl. unfold normaliseContent_body.
  destruct raw as [| |b|x|s|items|fields]; simpl; try (now eexists).
  - destruct b; now eexists.
  - destruct x; now eexists.
  - destruct (mapM_total chunk_text items) as [ys [Hys _]].
    { intros x _. apply chunk_text_total. }
    rewrite Hys. simpl. now eexists.
  - pose proof (depth_lookup (js "text") fields) as Hl.
    simpl in Hd.
    destruct (lookup (js "text") fields) as [| |b|x|s|items|fs] eqn:Ht;
      simpl; try (now eexists).
    destruct (mapM_total (normaliseContent frames) items) as [ys [Hys _]].
    { intros x Hx. apply IH. pose proof (depth_item x items Hx) as Hi.
      simpl in Hl. lia. }
    rewrite Hys. simpl. now eexists.
Qed.


Lemma mapM_settles {A B : Type} (f : A -> outcome B) (xs : list A) :
  (forall x, f x <> Diverge) -> Js.mapM f xs <> Diverge.
Proof.
  intros Hf. induction xs as [|x rest IH]; simpl; [discriminate|].
  specialize (Hf x). destruct (f x) as [y|e|]; simpl;
    [|discriminate|contradiction].
  destruct (Js.mapM f rest) as [ys|e|]; simpl;
    [discriminate|discriminate|contradiction].
Qed.

(** Whatever the room on the stack, a call ends: with a string or with
    an exception. *)
Lemma normaliseContent_settles (frames : nat) :
  forall raw, normaliseContent frames raw <> Diverge.
Proof.
  induction frames as [|frames IH]; intros raw; [discriminate|].
  simpl. unfold normaliseContent_body.
  destruct raw as [| |b|x|s|items|fields]; simpl; try discriminate.
  - destruct b; discriminate.
  - destruct x; discriminate.
  - destruct (mapM_total chunk_text items) as [ys [Hys _]].
    { intros x _. apply chunk_text_total. }
    rewrite Hys. discriminate.
  - destruct (lookup (js "text") fields) as [| |b|x|s|items|fs];
      simpl; try discriminate.
    pose proof (mapM_settles (normaliseContent frames) items IH) as Hitems.
    destruct (Js.mapM (normaliseContent frames) items) as [ys|e|];
      simpl; [discriminate|discriminate|contradiction].
Qed.

(** C1: the four test vectors of the specification, on any call stack
    with room for the calls they need (one, and two for the last).  A
    plain string is returned as it is, null gives the empty string, an
    array of chunks carrying text, content and value fields followed by
    an empty object gives the three strings joined by line feeds, and
    an object whose text is an array of two strings gives them joined
    by a line feed. *)
Theorem normaliseContent_test_vectors (frames : nat) :
  normaliseContent (S frames) (JStr (js "hello")) = Ok (js "hello")
  /\ normaliseContent (S frames) JNull = Ok []
  /\ normaliseContent (S frames)
       (JArr [JObj [(js "text", JStr (js "a"))];
              JObj [(js "content", JStr (js "b"))];
              JObj [(js "value", JStr (js "c"))];
              JObj []])
     = Ok (js "a" ++ LF ++ js "b" ++ LF ++ js "c")
  /\ normaliseContent (S (S frames))
       (JObj [(js "text", JArr [JStr (js "x"); JStr (js "y")])])
     = Ok (js "x" ++ LF ++ js "y").
Proof. repeat split; reflexivity. Qed.






(** What the code does for an object whose text is an array: every
    element goes through [normaliseContent], one level further down the
    call stack, and all the results, empty ones included, are joined
    with a line feed. *)
Lemma normaliseContent_text_array (frames : nat)
    (fields : list (jstring * value)) (items : list value) :
  lookup (js "text") fields = JArr items ->
  normaliseContent (S frames) (JObj fields)
  = (texts <- Js.mapM (normaliseContent frames) items ;;
     Ok (join LF texts)).
Proof.
  intros Ht. cbn [normaliseContent]. unfold normaliseContent_body.
  cbn [as_string truthy negb as_array get_prop Js.bind]. rewrite Ht.
  reflexivity.
Qed.

Lemma filter_nonempty_all (texts : list jstring) :
  forallb nonempty texts = true -> filter nonempty texts = texts.
Proof.
  induction texts as [|t rest IH]; simpl; [reflexivity|].
  intros H. apply andb_prop in H. destruct H as [Ht Hrest].
  rewrite Ht. now rewrite IH.
Qed.

(** Where the two rules agree: when no element of the text array
    normalises to the empty string, the code returns what the
    chunk-joining rule returns. *)
Lemma normaliseContent_text_array_agrees (frames : nat)
    (fields : list (jstring * value))
    (items : list value) (texts : list jstring) :
  lookup (js "text") fields = JArr items ->
  Js.mapM (normaliseContent frames) items = Ok texts ->
  forallb nonempty texts = true ->
  normaliseContent (S frames) (JObj fields) = spec_text_array_rule frames items.
Proof.
  intros Ht Htexts Hall.
  rewrite (normaliseContent_text_array frames fields items Ht).
  unfold spec_text_array_rule, join_chunks. rewrite Htexts. simpl.
  now rewrite (filter_nonempty_all texts Hall).
Qed.

(** C5: on an object whose text is the array ["x", {}, "y"] the code
    returns "x", an empty line and "y": the element that normalises to
    the empty string is kept, where the chunk-joining rule of the
    specification, and the array branch of the same function on the same
    three elements, drop it and return "x" and "y" on two lines.  This
    holds on every call stack with room for the two nested calls. *)
Theorem normaliseContent_text_array_keeps_empty (frames : nat) :
  let items := [JStr (js "x"); JObj []; JStr (js "y")] in
  normaliseContent (S (S frames)) (JObj [(js "text", JArr items)])
    = Ok (js "x" ++ LF ++ LF ++ js "y")
  /\ spec_text_array_rule (S frames) items = Ok (js "x" ++ LF ++ js "y")
  /\ normaliseContent (S frames) (JArr items) = Ok (js "x" ++ LF ++ js "y").
Proof. repeat split; reflexivity. Qed.

(** ** The chat route *)

Lemma trimStart_blank (m : jstring) :
  forallb is_whitespace m = true -> trimStart m = [].
Proof.
  induction m as [|c rest IH]; simpl; [reflexivity|].
  intros H. apply andb_prop in H. destruct H as [Hc Hrest].
  rewrite Hc. now apply IH.
Qed.

Lemma trim_blank (m : jstring) :
  forallb is_whitespace m = true -> trim m = [].
Proof.
  intros H. unfold trim. now rewrite (trimStart_blank m H).
Qed.

(** C8: without a configured credential group the route answers 503
    whatever the request body is, and it leaves the state untouched: no
    token is acquired, no request is sent, the log does not grow. *)
Theorem postChat_unconfigured (w : World) (config : AppConfig) (fuel : nat)
    (reqBody : value) (s : State) :
  azure config = None ->
  Server.postChat w config fuel reqBody s
  = (Ok {| Server.status := 503;
           Server.body := Server.ErrorOnly
             (js "Azure AI Foundry credentials are not configured.") |},
     s).
Proof.
  intros Hnone. unfold Server.postChat, Server.azureClient.
  now rewrite Hnone.
Qed.

Lemma postChat_unconfigured_witness :
  azure Sample.unconfigured = None
  /\ Server.postChat Sample.world Sample.unconfigured 0 Sample.hello initial
     = (Ok {| Server.status := 503;
              Server.body := Server.ErrorOnly
                (js "Azure AI Foundry credentials are not configured.") |},
        initial).
Proof.
  split; [reflexivity|].
  apply (postChat_unconfigured Sample.world Sample.unconfigured 0 Sample.hello
           initial).
  reflexivity.
Defined.

(** C7, as stated, fails: a body whose message is three spaces is
    refused by the schema, yet without credentials the answer is 503. *)
Lemma postChat_blank_unconfigured_503 :
  Server.chatPayloadSchema Sample.blank
    = inr [Server.TooSmall [js "message"] (Some (js "Message cannot be empty"))]
  /\ fst (Server.postChat Sample.world Sample.unconfigured 0 Sample.blank initial)
     = Ok {| Server.status := 503;
             Server.body := Server.ErrorOnly
               (js "Azure AI Foundry credentials are not configured.") |}.
Proof. split; reflexivity. Qed.

(** C7, amended: when the credential group is configured, a body whose
    message consists of white space only (or is empty) is answered 400
    with the validation issues, among them the one on the message field,
    and nothing is sent to the remote API. *)
Theorem postChat_blank_message (w : World) (config : AppConfig)
    (client : AzureConfig) (fuel : nat) (fields : list (jstring * value))
    (m : jstring) (s : State) :
  azure config = Some client ->
  lookup (js "message") fields = JStr m ->
  forallb is_whitespace m = true ->
  exists issues : list Server.Issue,
    Server.postChat w config fuel (JObj fields) s
    = (Ok {| Server.status := 400;
             Server.body := Server.InvalidPayload (js "Invalid payload") issues |},
       s)
    /\ In (Server.TooSmall [js "message"] (Some (js "Message cannot be empty")))
          issues.
Proof.
  intros Hsome Hm Hblank.
  unfold Server.postChat, Server.azureClient. rewrite Hsome.
  unfold Server.chatPayloadSchema. rewrite Hm.
  cbv zeta. unfold Server.string_trim_min1.
  rewrite (trim_blank m Hblank). simpl.
  eexists. split; [reflexivity|]. simpl. now left.
Qed.

Lemma postChat_blank_message_witness :
  azure Sample.configured = Some Sample.azureConfig
  /\ lookup (js "message") [(js "message", JStr (js "   "))] = JStr (js "   ")
  /\ forallb is_whitespace (js "   ") = true
  /\ exists issues : list Server.Issue,
       Server.postChat Sample.world Sample.configured 0 Sample.blank initial
       = (Ok {| Server.status := 400;
                Server.body := Server.InvalidPayload (js "Invalid payload") issues |},
          initial)
       /\ In (Server.TooSmall [js "message"] (Some (js "Message cannot be empty")))
             issues.
Proof.
  split; [reflexivity|]. split; [reflexivity|]. split; [reflexivity|].
  apply (postChat_blank_message Sample.world Sample.configured
           Sample.azureConfig 0 [(js "message", JStr (js "   "))] (js "   ")
           initial);
    reflexivity.
Defined.

(** ** Mapping a remote message *)

Lemma get_prop_defined (base : value) (key : jstring) :
  nullish base = false -> exists v, get_prop base key = Ok v.
Proof.
  destruct base; simpl; intros H; try discriminate; now eexists.
Qed.


(** A message that is read without error is mapped as far as its
    content normalises: the record is built once [normaliseContent]
    has returned, and an exception it throws is the outcome. *)
Lemma mapMessage_unfold (w : World) (message : value) (s : State)
    (mid mrole mcontent mcreated : value) :
  get_prop message (js "id") = Ok mid ->
  get_prop message (js "role") = Ok mrole ->
  get_prop message (js "content") = Ok mcontent ->
  get_prop message (js "created_at") = Ok mcreated ->
  fst (AzureFoundryClient.mapMessage w message s)
  = (text <- normaliseContent (stackRoom w) mcontent ;;
     Ok {| Foundry.id :=
             if nullish mid then JStr (uuid w (uuidCalls s)) else mid;
           Foundry.role := coalesce mrole (JStr (js "assistant"));
           Foundry.content := text;
           Foundry.createdAt :=
             if nullish mcreated then JStr (isoString w (clock s))
             else mcreated |}).
Proof.
  intros Hid Hrole Hcontent Hcreated.
  unfold AzureFoundryClient.mapMessage, Async.bind, lift.
  rewrite Hid, Hrole, Hcontent, Hcreated.
  destruct (normaliseContent (stackRoom w) mcontent) as [text|e|];
    destruct (nullish mid), (nullish mcreated); reflexivity.
Qed.

Lemma mapMessage_result (w : World) (message : value) (s : State)
    (mid mrole mcontent mcreated : value) (text : jstring) :
  get_prop message (js "id") = Ok mid ->
  get_prop message (js "role") = Ok mrole ->
  get_prop message (js "content") = Ok mcontent ->
  get_prop message (js "created_at") = Ok mcreated ->
  normaliseContent (stackRoom w) mcontent = Ok text ->
  fst (AzureFoundryClient.mapMessage w message s)
  = Ok {| Foundry.id :=
            if nullish mid then JStr (uuid w (uuidCalls s)) else mid;
          Foundry.role := coalesce mrole (JStr (js "assistant"));
          Foundry.content := text;
          Foundry.createdAt :=
            if nullish mcreated then JStr (isoString w (clock s))
            else mcreated |}.
Proof.
  intros Hid Hrole Hcontent Hcreated Htext.
  rewrite (mapMessage_unfold w message s mid mrole mcontent mcreated
             Hid Hrole Hcontent Hcreated).
  now rewrite Htext.
Qed.



(** ** The poll loop *)

(** The statuses on which the loop goes on, spelled out. *)
Lemma terminal_false_elim (status : value) :
  AzureFoundryClient.terminal status = false ->
  status = JStr (js "queued") \/ status = JStr (js "in_progress").
Proof.
  unfold AzureFoundryClient.terminal. intros H.
  apply orb_false_iff in H. destruct H as [_ Hin].
  apply negb_false_iff in Hin.
  destruct status as [| |b|x|s|items|fields]; simpl in Hin;
    try discriminate.
  apply orb_true_iff in Hin. destruct Hin as [Hq|Hin].
  - left. f_equal. now apply jstring_eqb_eq.
  - apply orb_true_iff in Hin. destruct Hin as [Hp|Hnone]; [|discriminate].
    right. f_equal. now apply jstring_eqb_eq.
Qed.

Lemma terminal_false_intro (status : value) :
  status = JStr (js "queued") \/ status = JStr (js "in_progress") ->
  AzureFoundryClient.terminal status = false.
Proof. intros [-> | ->]; reflexivity. Qed.

Lemma terminal_true_elim (status : value) :
  AzureFoundryClient.terminal status = true ->
  status <> JStr (js "queued") /\ status <> JStr (js "in_progress").
Proof.
  intros H. split; intros ->; discriminate H.
Qed.

(** A check that keeps the loop waiting answered a run that is queued
    or in progress. *)
Lemma waiting_elim (answer : FetchResult) :
  waiting answer = true ->
  exists (r : Response) (run st : value),
    answer = Responded r /\ ok r = true /\ parsed r = inl run
    /\ get_prop run (js "status") = Ok st
    /\ (st = JStr (js "queued") \/ st = JStr (js "in_progress")).
Proof.
  unfold waiting. destruct answer as [r|reason]; [|discriminate].
  destruct (ok r) eqn:Hok; [|discriminate]. cbn [andb].
  destruct (parsed r) as [run|message] eqn:Hparsed; [|discriminate].
  destruct (get_prop run (js "status")) as [st|e|] eqn:Hstatus;
    try discriminate.
  intros H. apply negb_true_iff in H.
  exists r, run, st. repeat split; try assumption.
  now apply terminal_false_elim.
Qed.

Section PollRun.

Variable w : World.
Variable config : AzureConfig.
Variables threadId runId : value.
Variable timeoutMs : Z.

Hypothesis fetch_takes_time : forall k, (0 <= fetchLatency w k)%Z.
Hypothesis timers_fire_late : forall k, (0 <= timerLag w k)%Z.

Let inspect_failed (r : Response) : exn :=
  Error (js "Failed to inspect run (" ++ of_N (Http.status r) ++ js "): "
           ++ text r).

Lemma get_prop_settles (base : value) (key : jstring) :
  get_prop base key <> Diverge.
Proof. destruct base; discriminate. Qed.

(** The loop from any state: [n] rounds that kept waiting, then the
    deadline, a refused check, a terminal run or an unreadable answer. *)
Lemma pollLoop_report (start : Z) (h : Headers) :
  let req := AzureFoundryClient.inspectRun w config threadId runId h in
  forall (fuel : nat) (s : State),
    (1 <= fuel)%nat ->
    (timeoutMs - (clock s - start) <= 800 * Z.of_nat fuel - 800)%Z ->
    exists (n : nat) (out : outcome value) (s' : State),
      AzureFoundryClient.pollLoop w config fuel threadId runId timeoutMs
        start h s = (out, s')
      /\ tokenCalls s' = tokenCalls s
      /\ (forall j, (j < n)%nat ->
            waiting (respond w (fetchCalls s + j) req) = true)
      /\ (800 * Z.of_nat n <= clock s' - clock s)%Z
      /\ ((0 < n)%nat ->
          (800 * (Z.of_nat n - 1) < timeoutMs - (clock s - start))%Z)
      /\ ((out = Throw (Error AzureFoundryClient.TIMED_OUT)
           /\ (timeoutMs <= clock s' - start)%Z
           /\ log s' = log s ++ poll_rounds req (fetchCalls s) n)
          \/ (log s' = log s ++ poll_rounds req (fetchCalls s) n
                         ++ [Fetched (fetchCalls s + n) req]
              /\ (clock s' - fetchLatency w (fetchCalls s + n) - start
                  < timeoutMs)%Z
              /\ ((exists r, respond w (fetchCalls s + n) req = Responded r
                     /\ ok r = false /\ out = Throw (inspect_failed r))
                  \/ (exists r run st,
                        respond w (fetchCalls s + n) req = Responded r
                        /\ ok r = true /\ parsed r = inl run
                        /\ get_prop run (js "status") = Ok st
                        /\ AzureFoundryClient.terminal st = true
                        /\ out = Ok run)
                  \/ (exists e,
                        unreadable (respond w (fetchCalls s + n) req) = Some e
                        /\ out = Throw e)))).
Proof.
  intros req fuel.
  induction fuel as [|fuel IH]; intros s Hfuel Hrem; [lia|].
  cbn [AzureFoundryClient.pollLoop].
  unfold Async.bind at 1. unfold now at 1.
  destruct (clock s - start <? timeoutMs)%Z eqn:Hcheck.
  2:{ apply Z.ltb_ge in Hcheck.
      exists 0%nat, (Throw (Error AzureFoundryClient.TIMED_OUT)), s.
      split; [reflexivity|]. split; [reflexivity|].
      split; [intros j Hj; lia|]. split; [lia|]. split; [lia|].
      left. split; [reflexivity|]. split; [lia|].
      simpl. now rewrite app_nil_r. }
  apply Z.ltb_lt in Hcheck.
  fold req.
  unfold Async.bind at 1. unfold fetch at 1.
  assert (Hlast : log (after_fetch w req s)
                  = log s ++ poll_rounds req (fetchCalls s) 0
                      ++ [Fetched (fetchCalls s + 0) req]).
  { simpl. now rewrite Nat.add_0_r. }
  assert (Hclock : (800 * Z.of_nat 0 <= clock (after_fetch w req s) - clock s)%Z).
  { simpl. specialize (fetch_takes_time (fetchCalls s)). lia. }
  assert (Hbegin : (clock (after_fetch w req s) - fetchLatency w (fetchCalls s)
                    - start < timeoutMs)%Z).
  { cbn [after_fetch clock]. lia. }
  destruct (respond w (fetchCalls s) req) as [r|reason] eqn:Hanswer.
  2:{ exists 0%nat, (Throw (Rejected reason)), (after_fetch w req s).
      rewrite Nat.add_0_r.
      split; [reflexivity|]. split; [reflexivity|].
      split; [intros j Hj; lia|]. split; [exact Hclock|]. split; [lia|].
      right. split; [now rewrite Nat.add_0_r in Hlast|]. split; [exact Hbegin|].
      right. right. exists (Rejected reason). rewrite Hanswer. now split. }
  destruct (ok r) eqn:Hok; cbn [negb].
  2:{ exists 0%nat, (Throw (inspect_failed r)), (after_fetch w req s).
      rewrite Nat.add_0_r.
      split; [reflexivity|]. split; [reflexivity|].
      split; [intros j Hj; lia|]. split; [exact Hclock|]. split; [lia|].
      right. split; [now rewrite Nat.add_0_r in Hlast|]. split; [exact Hbegin|].
      left. exists r. now repeat split. }
  unfold Async.bind at 1. unfold json at 1.
  destruct (parsed r) as [run|message] eqn:Hparsed.
  2:{ exists 0%nat, (Throw (SyntaxError message)), (after_fetch w req s).
      rewrite Nat.add_0_r.
      split; [reflexivity|]. split; [reflexivity|].
      split; [intros j Hj; lia|]. split; [exact Hclock|]. split; [lia|].
      right. split; [now rewrite Nat.add_0_r in Hlast|]. split; [exact Hbegin|].
      right. right. exists (SyntaxError message).
      rewrite Hanswer. cbn [unreadable]. rewrite Hok, Hparsed. now split. }
  unfold ret at 1. unfold Async.bind at 1. unfold lift at 1.
  destruct (get_prop run (js "status")) as [st|e|] eqn:Hstatus.
  3:{ now apply get_prop_settles in Hstatus. }
  2:{ exists 0%nat, (Throw e), (after_fetch w req s).
      rewrite Nat.add_0_r.
      split; [reflexivity|]. split; [reflexivity|].
      split; [intros j Hj; lia|]. split; [exact Hclock|]. split; [lia|].
      right. split; [now rewrite Nat.add_0_r in Hlast|]. split; [exact Hbegin|].
      right. right. exists e.
      rewrite Hanswer. cbn [unreadable]. rewrite Hok, Hparsed, Hstatus.
      now split. }
  destruct (AzureFoundryClient.terminal st) eqn:Hterminal.
  { exists 0%nat, (Ok run), (after_fetch w req s).
    rewrite Nat.add_0_r.
    split; [reflexivity|]. split; [reflexivity|].
    split; [intros j Hj; lia|]. split; [exact Hclock|]. split; [lia|].
    right. split; [now rewrite Nat.add_0_r in Hlast|]. split; [exact Hbegin|].
    right. left. exists r, run, st. now repeat split. }
  unfold Async.bind at 1. unfold sleep at 1.
  set (s2 := after_sleep w AzureFoundryClient.POLL_INTERVAL_MS
               (after_fetch w req s)).
  assert (Hs2 : (clock s + 800 <= clock s2)%Z).
  { subst s2. simpl. unfold AzureFoundryClient.POLL_INTERVAL_MS.
    specialize (fetch_takes_time (fetchCalls s)).
    specialize (timers_fire_late (timerCalls s)). lia. }
  destruct (IH s2) as (n & out & s' & Hrun & Htok & Hwait & Htime & Hbound & Hend).
  { lia. }
  { lia. }
  exists (S n), out, s'.
  split; [exact Hrun|]. split; [exact Htok|].
  split.
  { intros [|j] Hj.
    - rewrite Nat.add_0_r, Hanswer. cbn [waiting].
      rewrite Hok, Hparsed, Hstatus, Hterminal. reflexivity.
    - replace (fetchCalls s + S j)%nat with (fetchCalls s2 + j)%nat
        by (subst s2; simpl; lia).
      apply Hwait. lia. }
  split; [lia|].
  split.
  { intros _. destruct n as [|n]; [lia|].
    assert (0 < S n)%nat as Hpos by lia. specialize (Hbound Hpos). lia. }
  assert (Hlog2 : log s2 = log s ++ [Fetched (fetchCalls s) req;
                                     Slept AzureFoundryClient.POLL_INTERVAL_MS]).
  { subst s2. simpl. now rewrite <- app_assoc. }
  assert (Hf2 : fetchCalls s2 = S (fetchCalls s)) by (subst s2; reflexivity).
  rewrite Hlog2, Hf2 in Hend.
  replace (S (fetchCalls s) + n)%nat with (fetchCalls s + S n)%nat in Hend by lia.
  cbn [poll_rounds].
  destruct Hend as [(Hout & Hdeadline & Hlog)|(Hlog & Hcases)].
  - left. split; [exact Hout|]. split; [lia|].
    rewrite Hlog, <- app_assoc. reflexivity.
  - right. split; [|exact Hcases].
    rewrite Hlog, <- app_assoc. reflexivity.
Qed.

(** C3, amended: [pollRun] acquires its headers once and then checks
    the run status in rounds, pausing 800 ms after every check that
    found the run with status "queued" or "in_progress".  The deadline
    is tested only before a check is sent.  Provided no call takes
    negative time, the loop ends, with no bound on the rounds beyond
    the one the deadline gives: after [n] rounds that kept waiting, at
    least 800 ms apart, it ends in one of four ways.  The deadline has
    passed when the next check is due: it throws the time-out error.
    Otherwise the next check is sent before the deadline and its answer
    decides, however late it arrives.  The check is refused (its status
    code is not a success): it throws "Failed to inspect run" at once.
    It answers a run whose status is neither "queued" nor
    "in_progress": that run is returned, the first such run observed.
    Or the answer cannot be read (connection failure, a body that is
    not JSON, a null run) and that exception is thrown. *)
Theorem pollRun_checks_until_deadline (fuel : nat) (s : State) (t : jstring) :
  getToken w (tokenCalls s) = Token t ->
  (0 <= tokenLatency w (tokenCalls s))%Z ->
  (1 <= fuel)%nat ->
  (timeoutMs <= 800 * Z.of_nat fuel - 800)%Z ->
  let req := AzureFoundryClient.inspectRun w config threadId runId
               (AzureFoundryClient.bearer t) in
  let first := fetchCalls s in
  exists (n : nat) (out : outcome value) (s' : State),
    AzureFoundryClient.pollRun w config fuel threadId runId timeoutMs s
      = (out, s')
    /\ out <> Diverge
    /\ (forall j, (j < n)%nat ->
          exists (r : Response) (run st : value),
            respond w (first + j) req = Responded r
            /\ ok r = true /\ parsed r = inl run
            /\ get_prop run (js "status") = Ok st
            /\ (st = JStr (js "queued") \/ st = JStr (js "in_progress")))
    /\ (800 * Z.of_nat n <= clock s' - clock s)%Z
    /\ ((0 < n)%nat -> (800 * (Z.of_nat n - 1) < timeoutMs)%Z)
    /\ ((out = Throw (Error AzureFoundryClient.TIMED_OUT)
         /\ (timeoutMs <= clock s' - clock s)%Z
         /\ log s' = log s ++ TokenAcquired (tokenCalls s)
                       :: poll_rounds req first n)
        \/ (log s' = log s ++ TokenAcquired (tokenCalls s)
                       :: poll_rounds req first n
                       ++ [Fetched (first + n) req]
            /\ (clock s' - fetchLatency w (first + n) - clock s
                < timeoutMs)%Z
            /\ ((exists r, respond w (first + n) req = Responded r
                   /\ ok r = false
                   /\ out = Throw (Error
                         (js "Failed to inspect run ("
                            ++ of_N (Http.status r) ++ js "): " ++ text r)))
                \/ (exists r run st,
                      respond w (first + n) req = Responded r
                      /\ ok r = true /\ parsed r = inl run
                      /\ get_prop run (js "status") = Ok st
                      /\ st <> JStr (js "queued")
                      /\ st <> JStr (js "in_progress")
                      /\ out = Ok run)
                \/ (exists e,
                      unreadable (respond w (first + n) req) = Some e
                      /\ out = Throw e)))).
Proof.
  intros Htoken Hlat Hfuel Htimeout req first.
  set (h := AzureFoundryClient.bearer t) in *.
  unfold AzureFoundryClient.pollRun.
  unfold Async.bind at 1. unfold now at 1.
  unfold Async.bind at 1. unfold AzureFoundryClient.authHeaders.
  unfold Async.bind at 1. unfold acquire at 1. rewrite Htoken.
  unfold ret at 1. fold h.
  destruct (pollLoop_report (clock s) h fuel (after_acquire w s) Hfuel)
    as (n & out & s' & Hrun & _ & Hwait & Htime & Hbound & Hend).
  { cbn [after_acquire clock]. lia. }
  exists n, out, s'.
  split; [exact Hrun|].
  cbn [after_acquire clock fetchCalls log] in Hwait, Htime, Hbound, Hend.
  fold req first in Hwait, Hend.
  split.
  { destruct Hend as [(-> & _)|(_ & _ & [(r & _ & _ & ->)|[(r & run & st & _ & _ & _ & _ & _ & ->)|(e & _ & ->)]])];
      discriminate. }
  split; [intros j Hj; apply waiting_elim, Hwait, Hj|]. split; [lia|].
  split; [intros Hpos; specialize (Hbound Hpos); lia|].
  destruct Hend as [(Hout & Hdeadline & Hlog)|(Hlog & Hbegin & Hcases)].
  - left. split; [exact Hout|]. split; [lia|].
    rewrite Hlog, <- app_assoc. reflexivity.
  - right. split; [rewrite Hlog, <- app_assoc; reflexivity|].
    split; [exact Hbegin|].
    destruct Hcases as [Hrefused|[(r & run & st & Hanswer & Hok & Hparsed
                                     & Hstatus & Hterminal & Hout)|Hunread]].
    + left. exact Hrefused.
    + right. left. exists r, run, st.
      destruct (terminal_true_elim st Hterminal) as [Hq Hp].
      repeat split; assumption.
    + right. right. exact Hunread.
Qed.

End PollRun.

Lemma pollRun_checks_until_deadline_witness :
  (forall k, (0 <= fetchLatency Sample.stuck k)%Z)
  /\ (forall k, (0 <= timerLag Sample.stuck k)%Z)
  /\ getToken Sample.stuck (tokenCalls initial) = Token (js "t0")
  /\ (0 <= tokenLatency Sample.stuck (tokenCalls initial))%Z
  /\ (1 <= 151)%nat
  /\ (AzureFoundryClient.DEFAULT_TIMEOUT_MS <= 800 * Z.of_nat 151 - 800)%Z
  /\ fst (AzureFoundryClient.pollRun Sample.stuck Sample.azureConfig 151
            (JStr (js "thread_1")) (JStr (js "run_1"))
            AzureFoundryClient.DEFAULT_TIMEOUT_MS initial)
     <> Diverge.
Proof.
  assert (Hfetch : forall k, (0 <= fetchLatency Sample.stuck k)%Z)
    by (intros k; simpl; lia).
  assert (Htimer : forall k, (0 <= timerLag Sample.stuck k)%Z)
    by (intros k; simpl; lia).
  assert (Hlat : (0 <= tokenLatency Sample.stuck (tokenCalls initial))%Z)
    by (simpl; lia).
  assert (Hfuel : (1 <= 151)%nat) by lia.
  assert (Hdeadline :
            (AzureFoundryClient.DEFAULT_TIMEOUT_MS <= 800 * Z.of_nat 151 - 800)%Z)
    by (unfold AzureFoundryClient.DEFAULT_TIMEOUT_MS; lia).
  repeat (split; [first [assumption | reflexivity]|]).
  pose proof (pollRun_checks_until_deadline Sample.stuck Sample.azureConfig
                (JStr (js "thread_1")) (JStr (js "run_1"))
                AzureFoundryClient.DEFAULT_TIMEOUT_MS Hfetch Htimer
                151 initial (js "t0") eq_refl Hlat Hfuel Hdeadline) as H.
  cbv zeta in H.
  destruct H as (n & out & s' & Hrun & Hsettles & _).
  rewrite Hrun. exact Hsettles.
Defined.

(** C3, as stated, fails: a status check that is sent before the
    deadline is awaited to its end and its answer is used, with no look
    at the clock.  Against a remote whose first status check takes
    200 s and then reports the run completed, [pollRun] with the
    default deadline of 120 s sends that one check 5 ms after it
    started, returns the run 200 005 ms after it started, and throws
    no time-out error, although no status outside "queued" and
    "in_progress" was observed within the 120 s. *)
Lemma pollRun_returns_after_deadline :
  fst Cases.late_poll = Ok (Sample.run_with (JStr (js "completed")))
  /\ fst Cases.late_poll <> Throw (Error AzureFoundryClient.TIMED_OUT)
  /\ log (snd Cases.late_poll)
     = [TokenAcquired 0; Fetched 0 Cases.late_check]
  /\ clock initial = 0%Z
  /\ clock (snd Cases.late_poll) = 200005%Z
  /\ (AzureFoundryClient.DEFAULT_TIMEOUT_MS
      < clock (snd Cases.late_poll) - clock initial)%Z.
Proof.
  assert (Hrun : exists s',
             Cases.late_poll
             = (Ok (Sample.run_with (JStr (js "completed"))), s')
             /\ log s' = [TokenAcquired 0; Fetched 0 Cases.late_check]
             /\ clock s' = 200005%Z).
  { eexists. split; [vm_compute; reflexivity|].
    split; vm_compute; reflexivity. }
  destruct Hrun as (s' & -> & Hlog & Hclock).
  cbn [fst snd]. rewrite Hclock.
  split; [reflexivity|]. split; [discriminate|]. split; [exact Hlog|].
  split; [reflexivity|]. split; [reflexivity|].
  unfold AzureFoundryClient.DEFAULT_TIMEOUT_MS. simpl. lia.
Qed.

(** C10: a status check that answers a run whose status is missing,
    null or the empty string ends the poll at once: [pollRun] returns
    that run after one token acquisition and one request, without a
    pause. *)
Theorem pollRun_missing_status_is_terminal (w : World) (config : AzureConfig)
    (threadId runId : value) (timeoutMs : Z) (fuel : nat) (s : State)
    (t : jstring) (r : Response) (run st : value) :
  getToken w (tokenCalls s) = Token t ->
  (tokenLatency w (tokenCalls s) < timeoutMs)%Z ->
  respond w (fetchCalls s)
    (AzureFoundryClient.inspectRun w config threadId runId
       (AzureFoundryClient.bearer t)) = Responded r ->
  ok r = true ->
  parsed r = inl run ->
  get_prop run (js "status") = Ok st ->
  st = JUndefined \/ st = JNull \/ st = JStr [] ->
  AzureFoundryClient.terminal st = true
  /\ AzureFoundryClient.pollRun w config (S fuel) threadId runId timeoutMs s
     = (Ok run,
        after_fetch w
          (AzureFoundryClient.inspectRun w config threadId runId
             (AzureFoundryClient.bearer t))
          (after_acquire w s)).
Proof.
  intros Htoken Hlat Hanswer Hok Hparsed Hstatus Hst.
  set (h := AzureFoundryClient.bearer t) in *.
  set (req := AzureFoundryClient.inspectRun w config threadId runId h) in *.
  assert (Hterminal : AzureFoundryClient.terminal st = true)
    by (destruct Hst as [->|[->| ->]]; reflexivity).
  split; [exact Hterminal|].
  unfold AzureFoundryClient.pollRun.
  unfold Async.bind at 1. unfold now at 1.
  unfold Async.bind at 1. unfold AzureFoundryClient.authHeaders.
  unfold Async.bind at 1. unfold acquire at 1. rewrite Htoken.
  unfold ret at 1. fold h.
  cbn [AzureFoundryClient.pollLoop].
  unfold Async.bind at 1. unfold now at 1.
  replace (clock (after_acquire w s) - clock s <? timeoutMs)%Z with true
    by (symmetry; apply Z.ltb_lt; cbn [after_acquire clock]; lia).
  fold req.
  unfold Async.bind at 1. unfold fetch at 1.
  cbn [after_acquire fetchCalls]. rewrite Hanswer, Hok. cbn [negb].
  unfold Async.bind at 1. unfold json at 1. rewrite Hparsed.
  unfold ret at 1. unfold Async.bind at 1. unfold lift at 1.
  rewrite Hstatus, Hterminal. reflexivity.
Qed.

Lemma pollRun_missing_status_is_terminal_witness :
  fst (AzureFoundryClient.pollRun Sample.statusless Sample.azureConfig 1
         (JStr (js "thread_1")) (JStr (js "run_1"))
         AzureFoundryClient.DEFAULT_TIMEOUT_MS initial)
  = Ok (JObj [(js "id", JStr (js "run_1"))]).
Proof.
  destruct (pollRun_missing_status_is_terminal Sample.statusless
              Sample.azureConfig
              (JStr (js "thread_1")) (JStr (js "run_1"))
              AzureFoundryClient.DEFAULT_TIMEOUT_MS 0 initial (js "t0")
              {| Http.status := 200; text := [];
                 parsed := inl (JObj [(js "id", JStr (js "run_1"))]) |}
              (JObj [(js "id", JStr (js "run_1"))]) JUndefined
              eq_refl eq_refl eq_refl eq_refl eq_refl eq_refl
              (or_introl eq_refl)) as [_ Hrun].
  rewrite Hrun. reflexivity.
Defined.

(** ** Which token every request carries *)

Section TokenUse.

Variable w : World.
Variable config : AzureConfig.

(** A stretch of log that passes the check whatever came before it. *)
Let self_contained (evs : list Event) : Prop :=
  forall held armed, token_use w true held armed evs = true.

(** A computation that only appends such stretches. *)
Let disciplined {A : Type} (c : M A) : Prop :=
  forall s, exists evs,
    log (snd (c s)) = log s ++ evs /\ self_contained evs.

Lemma headers_eqb_refl (h : Headers) : headers_eqb h h = true.
Proof.
  unfold headers_eqb. apply andb_true_intro.
  split; now apply jstring_eqb_eq.
Qed.

Lemma token_use_app (a b : list Event) :
  self_contained b ->
  forall held armed,
    token_use w true held armed a = true ->
    token_use w true held armed (a ++ b) = true.
Proof.
  intros Hb. induction a as [|e a IH]; intros held armed Ha; simpl.
  - apply Hb.
  - destruct e as [k|k req|ms]; simpl in Ha.
    + now apply IH.
    + destruct held as [h|]; [|discriminate].
      apply andb_prop in Ha. destruct Ha as [Hhead Hrest].
      rewrite Hhead. now apply IH.
    + now apply IH.
Qed.

Lemma disciplined_silent {A : Type} (c : M A) :
  (forall s, log (snd (c s)) = log s) -> disciplined c.
Proof.
  intros Hc s. exists []. rewrite Hc, app_nil_r.
  split; [reflexivity|]. intros held armed. reflexivity.
Qed.

Lemma disciplined_bind {A B : Type} (c : M A) (k : A -> M B) :
  disciplined c -> (forall a, disciplined (k a)) ->
  disciplined (Async.bind c k).
Proof.
  intros Hc Hk s. unfold Async.bind.
  destruct (Hc s) as (e1 & Hlog1 & Hsc1).
  destruct (c s) as [[a|e|] s1] eqn:Hrun; simpl in Hlog1.
  - destruct (Hk a s1) as (e2 & Hlog2 & Hsc2).
    exists (e1 ++ e2). split.
    + rewrite Hlog2, Hlog1. now rewrite app_assoc.
    + intros held armed. apply token_use_app; [exact Hsc2|apply Hsc1].
  - exists e1. now split.
  - exists e1. now split.
Qed.

Lemma disciplined_mapM {A B : Type} (f : A -> M B) (xs : list A) :
  (forall x, disciplined (f x)) -> disciplined (Async.mapM f xs).
Proof.
  intros Hf. induction xs as [|x rest IH]; simpl.
  - now apply disciplined_silent.
  - apply disciplined_bind; [apply Hf|]. intros y.
    apply disciplined_bind; [exact IH|]. intros ys.
    now apply disciplined_silent.
Qed.

(** One operation of the client: acquire, send one request with what
    was acquired, go on without touching the token again. *)
Lemma disciplined_call {A : Type} (mk : Headers -> Request)
    (k : Response -> M A) :
  (forall h, headers (mk h) = h) ->
  (forall r, disciplined (k r)) ->
  disciplined (h <~ AzureFoundryClient.authHeaders w ;;
               r <~ fetch w (mk h) ;;
               k r).
Proof.
  intros Hmk Hk s.
  unfold Async.bind at 1. unfold AzureFoundryClient.authHeaders.
  unfold Async.bind at 1. unfold acquire.
  destruct (getToken w (tokenCalls s)) as [t| |reason] eqn:Htoken.
  - unfold ret at 1.
    unfold Async.bind at 1. unfold fetch.
    set (h := AzureFoundryClient.bearer t).
    set (s1 := after_acquire w s).
    assert (Hhead : forall rest, self_contained rest ->
              self_contained (TokenAcquired (tokenCalls s)
                                :: Fetched (fetchCalls s1) (mk h) :: rest)).
    { intros rest Hrest held armed. cbn [token_use].
      rewrite Htoken. cbn [headers_of]. fold h.
      rewrite Hmk, headers_eqb_refl. apply Hrest. }
    destruct (respond w (fetchCalls s1) (mk h)) as [r|reason].
    + destruct (Hk r (after_fetch w (mk h) s1)) as (e2 & Hlog2 & Hsc2).
      exists (TokenAcquired (tokenCalls s) :: Fetched (fetchCalls s1) (mk h) :: e2).
      split; [|now apply Hhead].
      rewrite Hlog2. subst s1. simpl. now rewrite <- !app_assoc.
    + exists [TokenAcquired (tokenCalls s); Fetched (fetchCalls s1) (mk h)].
      split; [|apply Hhead; intros held armed; reflexivity].
      subst s1. simpl. now rewrite <- !app_assoc.
  - exists [TokenAcquired (tokenCalls s)]. split; [reflexivity|].
    intros held armed. reflexivity.
  - exists [TokenAcquired (tokenCalls s)]. split; [reflexivity|].
    intros held armed. reflexivity.
Qed.

(** The loop sends every status check with the headers it was given:
    armed at the start, armed again after every pause. *)
Lemma pollLoop_token_use (threadId runId : value) (timeoutMs start : Z)
    (h : Headers) (fuel : nat) :
  forall s, exists evs,
    log (snd (AzureFoundryClient.pollLoop w config fuel threadId runId
                timeoutMs start h s)) = log s ++ evs
    /\ token_use w true (Some h) true evs = true.
Proof.
  induction fuel as [|fuel IH]; intros s.
  - exists []. simpl. now rewrite app_nil_r.
  - cbn [AzureFoundryClient.pollLoop].
    set (req := AzureFoundryClient.inspectRun w config threadId runId h).
    unfold Async.bind at 1. unfold now at 1.
    destruct (clock s - start <? timeoutMs)%Z.
    2:{ exists []. simpl. now rewrite app_nil_r. }
    unfold Async.bind at 1. unfold fetch at 1.
    assert (Hone : token_use w true (Some h) true [Fetched (fetchCalls s) req]
                   = true).
    { cbn [token_use]. subst req. cbn [AzureFoundryClient.inspectRun headers].
      now rewrite headers_eqb_refl. }
    destruct (respond w (fetchCalls s) req) as [r|reason];
      [|exists [Fetched (fetchCalls s) req]; now split].
    destruct (negb (ok r));
      [exists [Fetched (fetchCalls s) req]; now split|].
    unfold Async.bind at 1. unfold json at 1.
    destruct (parsed r) as [run|message];
      [|exists [Fetched (fetchCalls s) req]; now split].
    unfold ret at 1. unfold Async.bind at 1. unfold lift at 1.
    destruct (get_prop run (js "status")) as [st|e|];
      [|exists [Fetched (fetchCalls s) req]; now split
       |exists [Fetched (fetchCalls s) req]; now split].
    destruct (AzureFoundryClient.terminal st);
      [exists [Fetched (fetchCalls s) req]; now split|].
    unfold Async.bind at 1. unfold sleep at 1.
    destruct (IH (after_sleep w AzureFoundryClient.POLL_INTERVAL_MS
                    (after_fetch w req s))) as (evs & Hlog & Huse).
    exists (Fetched (fetchCalls s) req
              :: Slept AzureFoundryClient.POLL_INTERVAL_MS :: evs).
    split.
    + rewrite Hlog. simpl. now rewrite <- !app_assoc.
    + cbn [token_use]. subst req.
      cbn [AzureFoundryClient.inspectRun headers].
      rewrite headers_eqb_refl. exact Huse.
Qed.

Lemma disciplined_pollRun (fuel : nat) (threadId runId : value)
    (timeoutMs : Z) :
  disciplined (AzureFoundryClient.pollRun w config fuel threadId runId
                 timeoutMs).
Proof.
  intros s. unfold AzureFoundryClient.pollRun.
  unfold Async.bind at 1. unfold now at 1.
  unfold Async.bind at 1. unfold AzureFoundryClient.authHeaders.
  unfold Async.bind at 1. unfold acquire.
  destruct (getToken w (tokenCalls s)) as [t| |reason] eqn:Htoken.
  - unfold ret at 1.
    destruct (pollLoop_token_use threadId runId timeoutMs (clock s)
                (AzureFoundryClient.bearer t) fuel (after_acquire w s))
      as (evs & Hlog & Huse).
    exists (TokenAcquired (tokenCalls s) :: evs). split.
    + rewrite Hlog. simpl. now rewrite <- app_assoc.
    + intros held armed. cbn [token_use]. rewrite Htoken. exact Huse.
  - exists [TokenAcquired (tokenCalls s)]. split; [reflexivity|].
    intros held armed. reflexivity.
  - exists [TokenAcquired (tokenCalls s)]. split; [reflexivity|].
    intros held armed. reflexivity.
Qed.

Ltac discipline :=
  repeat first
    [ apply disciplined_call; [intros ?; reflexivity|intros ?]
    | apply disciplined_silent; intros ?; reflexivity
    | apply disciplined_bind; [|intros ?]
    | apply disciplined_mapM; intros ?
    | match goal with
      | |- disciplined (if ?b then _ else _) => destruct b
      | |- disciplined (json ?r) => unfold json; destruct (parsed r)
      end ].

Lemma disciplined_mapMessage (message : value) :
  disciplined (AzureFoundryClient.mapMessage w message).
Proof. unfold AzureFoundryClient.mapMessage. discipline. Qed.

Lemma disciplined_ensureThread (threadId : value) :
  disciplined (AzureFoundryClient.ensureThread w config threadId).
Proof. unfold AzureFoundryClient.ensureThread. discipline. Qed.

Lemma disciplined_appendUserMessage (threadId : value) (content : jstring) :
  disciplined (AzureFoundryClient.appendUserMessage w config threadId content).
Proof. unfold AzureFoundryClient.appendUserMessage. discipline. Qed.

Lemma disciplined_startRun (threadId : value) :
  disciplined (AzureFoundryClient.startRun w config threadId).
Proof. unfold AzureFoundryClient.startRun. discipline. Qed.

Lemma disciplined_listMessages (threadId : value) :
  disciplined (AzureFoundryClient.listMessages w config threadId).
Proof.
  unfold AzureFoundryClient.listMessages. discipline.
Qed.

(** C4, amended: in every turn, whatever its outcome, every request
    carries the token of the latest acquisition, and an acquisition
    serves one request only, except inside the poll loop: [pollRun]
    acquires once before the loop and every status check of that loop,
    each after an 800 ms pause, is sent with that one token. *)
Theorem sendMessage_token_per_operation (fuel : nat) (content : jstring)
    (threadId : value) (s : State) :
  exists evs : list Event,
    log (snd (AzureFoundryClient.sendMessage w config fuel content threadId s))
      = log s ++ evs
    /\ fresh_per_operation w evs = true.
Proof.
  assert (H : disciplined
                (AzureFoundryClient.sendMessage w config fuel content threadId)).
  { unfold AzureFoundryClient.sendMessage.
    apply disciplined_bind; [apply disciplined_ensureThread|intros tid].
    apply disciplined_bind; [apply disciplined_appendUserMessage|intros _].
    apply disciplined_bind; [apply disciplined_startRun|intros run].
    apply disciplined_bind; [discipline|intros rid].
    apply disciplined_bind; [apply disciplined_pollRun|intros final].
    apply disciplined_bind; [apply disciplined_listMessages|intros ms].
    discipline. }
  destruct (H s) as (evs & Hlog & Hsc).
  exists evs. split; [exact Hlog|]. apply Hsc.
Qed.

End TokenUse.

(** C4, as stated, fails: in the sample turn the run is in progress at
    the first status check, and the second check, after the pause, is
    sent with the same request (the same Authorization header) with no
    acquisition in between. *)
Lemma sendMessage_reuses_poll_token :
  (exists r0 r1 r2 req r5,
     log (snd Sample.turn)
     = [TokenAcquired 0; Fetched 0 r0; TokenAcquired 1; Fetched 1 r1;
        TokenAcquired 2; Fetched 2 r2;
        TokenAcquired 3; Fetched 3 req; Slept 800; Fetched 4 req;
        TokenAcquired 4; Fetched 5 r5])
  /\ fresh_per_call Sample.world (log (snd Sample.turn)) = false.
Proof.
  split; [|vm_compute; reflexivity].
  do 5 eexists. vm_compute. reflexivity.
Qed.

(** ** What a successful turn returns *)

Section Turn.

Variable w : World.
Variable config : AzureConfig.













End Turn.


(** * Further properties *)

(** ** Trimming *)

Lemma trimStart_head (s : jstring) :
  trimStart s = []
  \/ exists c r, trimStart s = c :: r /\ is_whitespace c = false.
Proof.
  induction s as [|c rest IH]; simpl; [now left|].
  destruct (is_whitespace c) eqn:Hc; [exact IH|].
  right. now exists c, rest.
Qed.

Lemma trimStart_fixed (c : N) (r : jstring) :
  is_whitespace c = false -> trimStart (c :: r) = c :: r.
Proof. intros Hc. simpl. now rewrite Hc. Qed.

Lemma trimStart_nil_iff (s : jstring) :
  trimStart s = [] <-> forallb is_whitespace s = true.
Proof.
  split; [|apply trimStart_blank].
  induction s as [|c rest IH]; simpl; [reflexivity|].
  destruct (is_whitespace c); [exact IH|discriminate].
Qed.

Lemma trimStart_snoc (l : jstring) (c : N) :
  is_whitespace c = false -> exists l', trimStart (l ++ [c]) = l' ++ [c].
Proof.
  intros Hc. induction l as [|x rest IH]; simpl.
  - rewrite Hc. now exists [].
  - destruct (is_whitespace x).
    + exact IH.
    + now exists (x :: rest).
Qed.

Lemma trimEnd_head (c : N) (r : jstring) :
  is_whitespace c = false -> exists r', trimEnd (c :: r) = c :: r'.
Proof.
  intros Hc. unfold trimEnd. simpl.
  destruct (trimStart_snoc (rev r) c Hc) as [l' Hl'].
  rewrite Hl', rev_app_distr. simpl. now exists (rev l').
Qed.

Lemma forallb_rev (f : N -> bool) (s : jstring) :
  forallb f (rev s) = forallb f s.
Proof.
  destruct (forallb f s) eqn:H.
  - rewrite forallb_forall in *. intros x Hx. apply H. now apply in_rev.
  - destruct (forallb f (rev s)) eqn:H'; [|reflexivity].
    rewrite forallb_forall in H'.
    assert (forallb f s = true) as Hs.
    { apply forallb_forall. intros x Hx. apply H'. now apply in_rev in Hx. }
    congruence.
Qed.

Lemma trimEnd_nil_iff (s : jstring) :
  trimEnd s = [] <-> forallb is_whitespace s = true.
Proof.
  unfold trimEnd. rewrite <- (forallb_rev is_whitespace s).
  rewrite <- trimStart_nil_iff. split; intros H.
  - apply (f_equal (@rev N)) in H. now rewrite rev_involutive in H.
  - now rewrite H.
Qed.

Lemma trim_nil_iff (s : jstring) :
  trim s = [] <-> forallb is_whitespace s = true.
Proof.
  unfold trim. split.
  - intros H. apply trimEnd_nil_iff in H.
    destruct (trimStart_head s) as [Hnil|(c & r & Hs & Hc)].
    + now apply trimStart_nil_iff.
    + rewrite Hs in H. simpl in H. rewrite Hc in H. discriminate.
  - intros H. now rewrite (trimStart_blank s H).
Qed.

Lemma trim_nonempty_iff (s : jstring) :
  nonempty (trim s) = true <-> forallb is_whitespace s = false.
Proof.
  pose proof (trim_nil_iff s) as H.
  destruct (trim s) eqn:Ht, (forallb is_whitespace s); simpl; split;
    intros; try reflexivity; try discriminate.
  - destruct H as [H _]. specialize (H eq_refl). discriminate.
  - destruct H as [_ H]. specialize (H eq_refl). discriminate.
Qed.

Lemma trimEnd_idempotent (s : jstring) : trimEnd (trimEnd s) = trimEnd s.
Proof.
  unfold trimEnd. rewrite rev_involutive.
  destruct (trimStart_head (rev s)) as [Hnil|(c & r & Hs & Hc)].
  - now rewrite Hnil.
  - rewrite Hs. now rewrite (trimStart_fixed c r Hc).
Qed.

Lemma trim_idempotent (s : jstring) : trim (trim s) = trim s.
Proof.
  unfold trim.
  destruct (trimStart_head s) as [Hnil|(c & r & Hs & Hc)].
  - rewrite Hnil. reflexivity.
  - rewrite Hs. destruct (trimEnd_head c r Hc) as [r' Hr'].
    rewrite Hr', (trimStart_fixed c r' Hc), <- Hr'.
    apply trimEnd_idempotent.
Qed.

Lemma trimStart_incl (s : jstring) (c : N) : In c (trimStart s) -> In c s.
Proof.
  induction s as [|x rest IH]; simpl; [tauto|].
  destruct (is_whitespace x); [|tauto]. intros H. right. now apply IH.
Qed.

Lemma trim_incl (s : jstring) (c : N) : In c (trim s) -> In c s.
Proof.
  unfold trim, trimEnd. intros H.
  apply in_rev in H. apply trimStart_incl in H. apply in_rev in H.
  now apply trimStart_incl in H.
Qed.

(** ** The chat payload schema *)

Lemma string_trim_min1_inl (field : jstring) (message : option jstring)
    (v : value) (t : jstring) :
  Server.string_trim_min1 field message v = inl t <->
  exists m, v = JStr m /\ forallb is_whitespace m = false /\ t = trim m.
Proof.
  unfold Server.string_trim_min1. split.
  - destruct v as [| |b|x|m|items|fields]; try discriminate.
    destruct (trim m) as [|c r] eqn:Ht; simpl; [discriminate|].
    intros H. injection H as <-. exists m. split; [reflexivity|].
    split; [|now rewrite Ht].
    apply trim_nonempty_iff. now rewrite Ht.
  - intros (m & -> & Hm & ->).
    apply trim_nonempty_iff in Hm.
    destruct (trim m); [discriminate|reflexivity].
Qed.

Lemma chatPayloadSchema_inl_elim (reqBody : value)
    (data : Server.ChatPayload) :
  Server.chatPayloadSchema reqBody = inl data ->
  exists fields m,
    reqBody = JObj fields
    /\ lookup (js "message") fields = JStr m
    /\ forallb is_whitespace m = false
    /\ Server.message data = trim m
    /\ ((lookup (js "threadId") fields = JUndefined
         /\ Server.threadId data = JUndefined)
        \/ exists t, lookup (js "threadId") fields = JStr t
                     /\ forallb is_whitespace t = false
                     /\ Server.threadId data = JStr (trim t)).
Proof.
  destruct reqBody as [| |b|x|s|items|fields]; try discriminate.
  unfold Server.chatPayloadSchema. cbv zeta.
  destruct (Server.string_trim_min1 (js "message")
              (Some (js "Message cannot be empty"))
              (lookup (js "message") fields)) as [m'|issues] eqn:Hm;
    [|discriminate].
  apply string_trim_min1_inl in Hm. destruct Hm as (m & Hlm & Hws & ->).
  unfold Server.optional_string_trim_min1.
  destruct (lookup (js "threadId") fields) as [| |b|x|t|items|fs] eqn:Ht;
    try discriminate.
  + intros H. injection H as <-. exists fields, m.
    repeat (split; [first [reflexivity|assumption]|]). now left.
  + destruct (Server.string_trim_min1 (js "threadId") None (JStr t))
      as [t'|issues] eqn:Hparse; [|discriminate].
    apply string_trim_min1_inl in Hparse.
    destruct Hparse as (t0 & Heq & Hwt & ->). injection Heq as <-.
    intros H. injection H as <-. exists fields, m.
    repeat (split; [first [reflexivity|assumption]|]).
    right. now exists t.
Qed.

Lemma chatPayloadSchema_inl_intro (reqBody : value)
    (data : Server.ChatPayload) :
  (exists fields m,
    reqBody = JObj fields
    /\ lookup (js "message") fields = JStr m
    /\ forallb is_whitespace m = false
    /\ Server.message data = trim m
    /\ ((lookup (js "threadId") fields = JUndefined
         /\ Server.threadId data = JUndefined)
        \/ exists t, lookup (js "threadId") fields = JStr t
                     /\ forallb is_whitespace t = false
                     /\ Server.threadId data = JStr (trim t))) ->
  Server.chatPayloadSchema reqBody = inl data.
Proof.
  intros (fields & m & -> & Hlm & Hws & Hmsg & Hthread).
  unfold Server.chatPayloadSchema. cbv zeta.
  assert (Hm : Server.string_trim_min1 (js "message")
                 (Some (js "Message cannot be empty"))
                 (lookup (js "message") fields) = inl (trim m)).
  { apply string_trim_min1_inl. exists m. now repeat split. }
  rewrite Hm. unfold Server.optional_string_trim_min1.
  destruct data as [dm dt]. simpl in Hmsg, Hthread. subst dm.
  destruct Hthread as [[Hlt ->]|(t & Hlt & Hwt & ->)]; rewrite Hlt.
  + reflexivity.
  + assert (Ht : Server.string_trim_min1 (js "threadId") None (JStr t)
                 = inl (trim t)).
    { apply string_trim_min1_inl. exists t. now repeat split. }
    now rewrite Ht.
Qed.

(** The schema accepts exactly the objects whose message is a string
    with a character that is not white space and whose threadId is
    absent or such a string too; what it hands on is trimmed. *)
Theorem chatPayloadSchema_accepts (reqBody : value) (data : Server.ChatPayload) :
  Server.chatPayloadSchema reqBody = inl data <->
  exists fields m,
    reqBody = JObj fields
    /\ lookup (js "message") fields = JStr m
    /\ forallb is_whitespace m = false
    /\ Server.message data = trim m
    /\ ((lookup (js "threadId") fields = JUndefined
         /\ Server.threadId data = JUndefined)
        \/ exists t, lookup (js "threadId") fields = JStr t
                     /\ forallb is_whitespace t = false
                     /\ Server.threadId data = JStr (trim t)).
Proof.
  split.
  - apply chatPayloadSchema_inl_elim.
  - apply chatPayloadSchema_inl_intro.
Qed.

(** What the route hands to the client is never blank: an accepted
    message is not empty and has no white space around it, and an
    accepted threadId is undefined or such a string, so that
    [ensureThread] takes it as supplied. *)
Theorem chatPayloadSchema_normalises (reqBody : value)
    (data : Server.ChatPayload) :
  Server.chatPayloadSchema reqBody = inl data ->
  nonempty (Server.message data) = true
  /\ trim (Server.message data) = Server.message data
  /\ (Server.threadId data = JUndefined
      \/ exists t, Server.threadId data = JStr t
                   /\ trim t = t
                   /\ truthy (Server.threadId data) = true).
Proof.
  intros H. apply chatPayloadSchema_inl_elim in H.
  destruct H as (fields & m & _ & _ & Hws & -> & Hthread).
  split; [now apply trim_nonempty_iff|].
  split; [apply trim_idempotent|].
  destruct Hthread as [[_ ->]|(t & _ & Hwt & ->)]; [now left|].
  right. exists (trim t). split; [reflexivity|].
  split; [apply trim_idempotent|].
  simpl. now apply trim_nonempty_iff.
Qed.

Lemma chatPayloadSchema_normalises_witness :
  Server.chatPayloadSchema Sample.hello
    = inl {| Server.message := js "hello"; Server.threadId := JUndefined |}
  /\ nonempty (js "hello") = true
  /\ trim (js "hello") = js "hello".
Proof.
  split; [reflexivity|].
  destruct (chatPayloadSchema_normalises Sample.hello
              {| Server.message := js "hello"; Server.threadId := JUndefined |}
              eq_refl) as (Hne & Htrim & _).
  split; [exact Hne|exact Htrim].
Defined.

(** ** A turn always settles *)

Section Settles.

Variable w : World.
Variable config : AzureConfig.

Hypothesis tokens_take_time : forall k, (0 <= tokenLatency w k)%Z.
Hypothesis fetch_takes_time : forall k, (0 <= fetchLatency w k)%Z.
Hypothesis timers_fire_late : forall k, (0 <= timerLag w k)%Z.

(** A computation that never runs out of fuel. *)
Let settles {A : Type} (c : M A) : Prop :=
  forall s, fst (c s) <> Diverge.

Lemma settles_bind {A B : Type} (c : M A) (k : A -> M B) :
  settles c -> (forall a, settles (k a)) -> settles (Async.bind c k).
Proof.
  intros Hc Hk s. unfold Async.bind. specialize (Hc s).
  destruct (c s) as [[a|e|] s1]; simpl in *.
  - apply Hk.
  - discriminate.
  - congruence.
Qed.

Lemma settles_lift {A : Type} (c : outcome A) :
  c <> Diverge -> settles (lift c).
Proof. intros Hc s. exact Hc. Qed.

Lemma settles_mapM {A B : Type} (f : A -> M B) (xs : list A) :
  (forall x, settles (f x)) -> settles (Async.mapM f xs).
Proof.
  intros Hf. induction xs as [|x rest IH]; simpl.
  - intros s. discriminate.
  - apply settles_bind; [apply Hf|]. intros y.
    apply settles_bind; [exact IH|]. intros ys s. discriminate.
Qed.

Lemma get_prop_opt_settles (base : value) (key : jstring) :
  get_prop_opt base key <> Diverge.
Proof.
  unfold get_prop_opt. destruct (nullish base); [discriminate|].
  apply get_prop_settles.
Qed.

Lemma settles_authHeaders : settles (AzureFoundryClient.authHeaders w).
Proof.
  intros s. unfold AzureFoundryClient.authHeaders, Async.bind, acquire.
  destruct (getToken w (tokenCalls s)); discriminate.
Qed.

Lemma settles_fetch (req : Request) : settles (fetch w req).
Proof.
  intros s. unfold fetch. destruct (respond w (fetchCalls s) req); discriminate.
Qed.

Lemma settles_json (r : Response) : settles (json r).
Proof. intros s. unfold json. destruct (parsed r); discriminate. Qed.

Ltac settle :=
  repeat first
    [ apply settles_authHeaders
    | apply settles_fetch
    | apply settles_json
    | apply settles_lift;
        first [ apply get_prop_settles
              | apply get_prop_opt_settles
              | apply normaliseContent_settles ]
    | apply settles_mapM; intros ?
    | apply settles_bind; [|intros ?]
    | match goal with
      | |- settles (if ?b then _ else _) => destruct b
      end
    | intros ?; discriminate ].

Lemma settles_mapMessage (message : value) :
  settles (AzureFoundryClient.mapMessage w message).
Proof. unfold AzureFoundryClient.mapMessage. settle. Qed.

Lemma settles_ensureThread (threadId : value) :
  settles (AzureFoundryClient.ensureThread w config threadId).
Proof. unfold AzureFoundryClient.ensureThread. settle. Qed.

Lemma settles_appendUserMessage (threadId : value) (content : jstring) :
  settles (AzureFoundryClient.appendUserMessage w config threadId content).
Proof. unfold AzureFoundryClient.appendUserMessage. settle. Qed.

Lemma settles_startRun (threadId : value) :
  settles (AzureFoundryClient.startRun w config threadId).
Proof. unfold AzureFoundryClient.startRun. settle. Qed.

Lemma settles_listMessages (threadId : value) :
  settles (AzureFoundryClient.listMessages w config threadId).
Proof.
  unfold AzureFoundryClient.listMessages. settle.
Qed.

Lemma settles_pollRun (fuel : nat) (threadId runId : value) (timeoutMs : Z) :
  (1 <= fuel)%nat ->
  (timeoutMs <= 800 * Z.of_nat fuel - 800)%Z ->
  settles (AzureFoundryClient.pollRun w config fuel threadId runId timeoutMs).
Proof.
  intros Hfuel Htimeout s. unfold AzureFoundryClient.pollRun.
  unfold Async.bind at 1. unfold now at 1.
  unfold Async.bind at 1. unfold AzureFoundryClient.authHeaders.
  unfold Async.bind at 1. unfold acquire at 1.
  destruct (getToken w (tokenCalls s)) as [t| |reason]; try discriminate.
  unfold ret at 1.
  destruct (pollLoop_report w config threadId runId timeoutMs
              fetch_takes_time timers_fire_late (clock s)
              (AzureFoundryClient.bearer t) fuel (after_acquire w s) Hfuel)
    as (n & out & s' & Hrun & _ & _ & _ & _ & Hend).
  { cbn [after_acquire clock]. specialize (tokens_take_time (tokenCalls s)). lia. }
  rewrite Hrun. cbn [fst].
  destruct Hend as [(-> & _)|(_ & _ & [(r & _ & _ & ->)|[(r & run & st & _ & _ & _ & _ & _ & ->)|(e & _ & ->)]])];
    discriminate.
Qed.

(** With a budget of 151 rounds, which the default deadline of 120 s
    never needs in full, a turn settles whatever the remote answers. *)
Lemma settles_sendMessage (fuel : nat) (content : jstring) (threadId : value) :
  (151 <= fuel)%nat ->
  settles (AzureFoundryClient.sendMessage w config fuel content threadId).
Proof.
  intros Hfuel. unfold AzureFoundryClient.sendMessage.
  apply settles_bind; [apply settles_ensureThread|intros tid].
  apply settles_bind; [apply settles_appendUserMessage|intros _].
  apply settles_bind; [apply settles_startRun|intros run].
  apply settles_bind; [settle|intros rid].
  apply settles_bind; [|intros final].
  { apply settles_pollRun; [lia|].
    unfold AzureFoundryClient.DEFAULT_TIMEOUT_MS. lia. }
  apply settles_bind; [apply settles_listMessages|intros ms].
  settle.
Qed.

End Settles.

(** ** The chat route, case by case *)

Lemma postChat_unconfigured_state (w : World) (config : AppConfig)
    (fuel : nat) (reqBody : value) (s : State) :
  azure config = None ->
  Server.postChat w config fuel reqBody s
  = (Ok {| Server.status := 503;
           Server.body := Server.ErrorOnly
             (js "Azure AI Foundry credentials are not configured.") |},
     s).
Proof.
  intros Hnone. unfold Server.postChat, Server.azureClient.
  now rewrite Hnone.
Qed.

Lemma postChat_valid (w : World) (config : AppConfig) (client : AzureConfig)
    (fuel : nat) (reqBody : value) (data : Server.ChatPayload) (s : State) :
  azure config = Some client ->
  Server.chatPayloadSchema reqBody = inl data ->
  Server.postChat w config fuel reqBody s
  = match AzureFoundryClient.sendMessage w client fuel
            (Server.message data) (Server.threadId data) s with
    | (Ok turn, s') =>
        (Ok {| Server.status := 200;
               Server.body := Server.Chat (Foundry.threadId turn)
                                (Foundry.messages turn) |}, s')
    | (Throw e, s') =>
        (Ok {| Server.status := 502;
               Server.body := Server.RequestFailed
                 (js "Azure agent request failed") (Server.exn_message e) |},
         s')
    | (Diverge, s') => (Diverge, s')
    end.
Proof.
  intros Hsome Hvalid.
  unfold Server.postChat, Server.azureClient. rewrite Hsome, Hvalid.
  unfold Server.try_catch, Async.bind.
  destruct (AzureFoundryClient.sendMessage w client fuel
              (Server.message data) (Server.threadId data) s)
    as [[turn|e|] s']; reflexivity.
Qed.

(** The route always answers, and with one of four status codes: 503
    without credentials, 400 with the issues for a body the schema
    refuses, and for an accepted body 200 with the thread and the
    messages of the turn, or 502 with the message of whatever the client
    threw.  It never throws itself and never hangs, as long as no call
    takes negative time. *)
Theorem postChat_always_answers (w : World) (config : AppConfig) (fuel : nat)
    (reqBody : value) (s : State) :
  (forall k, (0 <= tokenLatency w k)%Z) ->
  (forall k, (0 <= fetchLatency w k)%Z) ->
  (forall k, (0 <= timerLag w k)%Z) ->
  (151 <= fuel)%nat ->
  exists (resp : Server.HttpResponse) (s' : State),
    Server.postChat w config fuel reqBody s = (Ok resp, s')
    /\ match azure config, Server.chatPayloadSchema reqBody with
       | None, _ => Server.status resp = 503%N /\ s' = s
       | Some _, inr issues =>
           Server.status resp = 400%N
           /\ Server.body resp
              = Server.InvalidPayload (js "Invalid payload") issues
           /\ s' = s
       | Some client, inl data =>
           (exists turn,
              AzureFoundryClient.sendMessage w client fuel
                (Server.message data) (Server.threadId data) s = (Ok turn, s')
              /\ Server.status resp = 200%N
              /\ Server.body resp
                 = Server.Chat (Foundry.threadId turn) (Foundry.messages turn))
           \/ (exists e,
                 AzureFoundryClient.sendMessage w client fuel
                   (Server.message data) (Server.threadId data) s
                 = (Throw e, s')
                 /\ Server.status resp = 502%N
                 /\ Server.body resp
                    = Server.RequestFailed (js "Azure agent request failed")
                        (Server.exn_message e))
       end.
Proof.
  intros Htok Hfetch Htimer Hfuel.
  destruct (azure config) as [client|] eqn:Hazure.
  - destruct (Server.chatPayloadSchema reqBody) as [data|issues] eqn:Hvalid.
    + rewrite (postChat_valid w config client fuel reqBody data s Hazure Hvalid).
      pose proof (settles_sendMessage w client Htok Hfetch Htimer fuel
                    (Server.message data) (Server.threadId data) Hfuel s)
        as Hsettles.
      destruct (AzureFoundryClient.sendMessage w client fuel
                  (Server.message data) (Server.threadId data) s)
        as [[turn|e|] s'] eqn:Hturn; simpl in Hsettles; [| |congruence].
      * eexists _, s'. split; [reflexivity|]. left. now exists turn.
      * eexists _, s'. split; [reflexivity|]. right. now exists e.
    + unfold Server.postChat, Server.azureClient. rewrite Hazure, Hvalid.
      eexists _, s. split; [reflexivity|]. now repeat split.
  - rewrite (postChat_unconfigured_state w config fuel reqBody s Hazure).
    eexists _, s. split; [reflexivity|]. now split.
Qed.

Lemma postChat_always_answers_witness :
  exists (resp : Server.HttpResponse) (s' : State),
    Server.postChat Sample.world Sample.configured 151 Sample.hello initial
    = (Ok resp, s').
Proof.
  assert (Htok : forall k, (0 <= tokenLatency Sample.world k)%Z)
    by (intros k; simpl; lia).
  assert (Hfetch : forall k, (0 <= fetchLatency Sample.world k)%Z)
    by (intros k; simpl; lia).
  assert (Htimer : forall k, (0 <= timerLag Sample.world k)%Z)
    by (intros k; simpl; lia).
  assert (Hfuel : (151 <= 151)%nat) by lia.
  destruct (postChat_always_answers Sample.world Sample.configured 151
              Sample.hello initial Htok Hfetch Htimer Hfuel)
    as (resp & s' & Hrun & _).
  now exists resp, s'.
Defined.

Lemma authHeaders_no_token (w : World) (s : State) :
  headers_of (getToken w (tokenCalls s)) = None ->
  exists e,
    AzureFoundryClient.authHeaders w s = (Throw e, after_acquire w s)
    /\ Server.exn_message e = no_token_message (getToken w (tokenCalls s)).
Proof.
  unfold AzureFoundryClient.authHeaders, Async.bind, acquire.
  destruct (getToken w (tokenCalls s)) as [t| |reason]; simpl;
    [discriminate| |]; intros _; eexists; split; reflexivity.
Qed.

(** When the credential yields no token (it resolves to null, or it
    rejects), an accepted chat request is answered 502 with the message
    of that failure, and the only effect is the one acquisition: no
    request reaches the remote API. *)
Theorem postChat_without_token (w : World) (config : AppConfig)
    (client : AzureConfig) (fuel : nat) (reqBody : value)
    (data : Server.ChatPayload) (s : State) :
  azure config = Some client ->
  Server.chatPayloadSchema reqBody = inl data ->
  headers_of (getToken w (tokenCalls s)) = None ->
  Server.postChat w config fuel reqBody s
  = (Ok {| Server.status := 502;
           Server.body := Server.RequestFailed
             (js "Azure agent request failed")
             (no_token_message (getToken w (tokenCalls s))) |},
     after_acquire w s).
Proof.
  intros Hazure Hvalid Hnone.
  rewrite (postChat_valid w config client fuel reqBody data s Hazure Hvalid).
  destruct (authHeaders_no_token w s Hnone) as (e & Hauth & Hmsg).
  assert (Hturn : AzureFoundryClient.sendMessage w client fuel
                    (Server.message data) (Server.threadId data) s
                  = (Throw e, after_acquire w s)).
  { unfold AzureFoundryClient.sendMessage.
    unfold Async.bind at 1. unfold AzureFoundryClient.ensureThread.
    destruct (truthy (Server.threadId data)).
    - unfold ret at 1.
      unfold Async.bind at 1. unfold AzureFoundryClient.appendUserMessage.
      unfold Async.bind at 1. now rewrite Hauth.
    - unfold Async.bind at 1. now rewrite Hauth. }
  rewrite Hturn, Hmsg. reflexivity.
Qed.

Lemma postChat_without_token_witness :
  azure Sample.configured = Some Sample.azureConfig
  /\ headers_of (getToken Cases.locked (tokenCalls initial)) = None
  /\ Server.postChat Cases.locked Sample.configured 151 Sample.hello initial
     = (Ok {| Server.status := 502;
              Server.body := Server.RequestFailed
                (js "Azure agent request failed")
                (js "Failed to acquire Azure access token") |},
        after_acquire Cases.locked initial).
Proof.
  split; [reflexivity|]. split; [reflexivity|].
  apply (postChat_without_token Cases.locked Sample.configured
           Sample.azureConfig 151 Sample.hello
           {| Server.message := js "hello"; Server.threadId := JUndefined |}
           initial);
    reflexivity.
Defined.

(** The two descriptors carry the same flag, and the flag tells what the
    chat route does: it is false exactly when every chat request is
    answered 503 with nothing done, and when it is true no chat request
    is ever answered 503. *)
Theorem healthz_reflects_chat (config : AppConfig) :
  Routes.descriptor_azureConfigured (Routes.getRoot config)
    = Routes.azureConfigured (Routes.getHealthz config)
  /\ (Routes.azureConfigured (Routes.getHealthz config) = false <->
      forall w fuel reqBody s,
        exists resp,
          Server.postChat w config fuel reqBody s = (Ok resp, s)
          /\ Server.status resp = 503%N)
  /\ (Routes.azureConfigured (Routes.getHealthz config) = true <->
      forall w fuel reqBody s resp s',
        Server.postChat w config fuel reqBody s = (Ok resp, s') ->
        Server.status resp <> 503%N).
Proof.
  assert (Hconfigured :
            forall client, azure config = Some client ->
            forall w fuel reqBody s resp s',
              Server.postChat w config fuel reqBody s = (Ok resp, s') ->
              Server.status resp <> 503%N).
  { intros client Hazure w fuel reqBody s resp s' Hrun.
    destruct (Server.chatPayloadSchema reqBody) as [data|issues] eqn:Hvalid.
    - rewrite (postChat_valid w config client fuel reqBody data s Hazure Hvalid)
        in Hrun.
      destruct (AzureFoundryClient.sendMessage w client fuel
                  (Server.message data) (Server.threadId data) s)
        as [[turn|e|] s1]; try discriminate;
        injection Hrun as <- _; discriminate.
    - unfold Server.postChat, Server.azureClient in Hrun.
      rewrite Hazure, Hvalid in Hrun. unfold ret in Hrun.
      injection Hrun as <- _. discriminate. }
  split; [reflexivity|].
  unfold Routes.getHealthz, Routes.configured, Server.azureClient.
  cbn [Routes.azureConfigured].
  destruct (azure config) as [client|] eqn:Hazure.
  - split; split.
    + discriminate.
    + intros Hall.
      destruct (Hall Sample.world 0 JNull initial) as (resp & Hrun & Hstatus).
      exfalso. exact (Hconfigured client eq_refl _ _ _ _ _ _ Hrun Hstatus).
    + intros _. now apply (Hconfigured client).
    + reflexivity.
  - split; split.
    + intros _ w fuel reqBody s.
      rewrite (postChat_unconfigured_state w config fuel reqBody s Hazure).
      eexists. now split.
    + reflexivity.
    + discriminate.
    + intros Hall. exfalso.
      apply (Hall Sample.world 0 JNull initial _ initial
               (postChat_unconfigured_state Sample.world config 0 JNull
                  initial Hazure)).
      reflexivity.
Qed.

(** ** What the relay forwards *)

Section Forwarding.

Variable w : World.
Variable config : AzureConfig.

(** A computation that only appends to the log. *)
Let grows {A : Type} (c : M A) : Prop :=
  forall s, exists evs, log (snd (c s)) = log s ++ evs.

Lemma grows_checked {A : Type} (c : M A) (P : list Event -> Prop) :
  (forall s, exists evs, log (snd (c s)) = log s ++ evs /\ P evs) -> grows c.
Proof.
  intros H s. destruct (H s) as (evs & Hlog & _). now exists evs.
Qed.

Lemma grows_ret {A : Type} (a : A) : grows (ret a).
Proof. intros s. exists []. simpl. now rewrite app_nil_r. Qed.

Lemma grows_lift {A : Type} (c : outcome A) : grows (lift c).
Proof. intros s. exists []. simpl. now rewrite app_nil_r. Qed.

Lemma log_after_bind {A B : Type} (c : M A) (k : A -> M B) :
  (forall a, grows (k a)) ->
  forall s, exists evs,
    log (snd (Async.bind c k s)) = log (snd (c s)) ++ evs.
Proof.
  intros Hk s. unfold Async.bind.
  destruct (c s) as [[a|e|] s1]; simpl.
  - apply Hk.
  - exists []. now rewrite app_nil_r.
  - exists []. now rewrite app_nil_r.
Qed.

Lemma grows_bind {A B : Type} (c : M A) (k : A -> M B) :
  grows c -> (forall a, grows (k a)) -> grows (Async.bind c k).
Proof.
  intros Hc Hk s.
  destruct (log_after_bind c k Hk s) as (e2 & H2).
  destruct (Hc s) as (e1 & H1).
  exists (e1 ++ e2). now rewrite H2, H1, app_assoc.
Qed.

Lemma appendUserMessage_log (threadId : value) (content token : jstring)
    (s : State) :
  getToken w (tokenCalls s) = Token token ->
  log (snd (AzureFoundryClient.appendUserMessage w config threadId content s))
  = log s ++
    [TokenAcquired (tokenCalls s);
     Fetched (fetchCalls s)
       {| method := POST;
          Http.url := AzureFoundryClient.url config
                        (js "/threads/" ++ toString w threadId
                           ++ js "/messages");
          headers := AzureFoundryClient.bearer token;
          body := Some (JObj [(js "role", JStr (js "user"));
                              (js "content", JStr content)]) |}].
Proof.
  intros Htoken. unfold AzureFoundryClient.appendUserMessage.
  unfold Async.bind at 1. unfold AzureFoundryClient.authHeaders.
  unfold Async.bind at 1. unfold acquire at 1. rewrite Htoken.
  unfold ret at 1. unfold Async.bind at 1. unfold fetch at 1.
  cbn [after_acquire fetchCalls].
  match goal with
  | |- context [respond w (fetchCalls s) ?req] =>
      destruct (respond w (fetchCalls s) req) as [r|reason]
  end.
  - destruct (negb (ok r)); simpl; now rewrite <- app_assoc.
  - simpl. now rewrite <- app_assoc.
Qed.

(** After the message is appended the turn only appends to the log. *)
Lemma grows_after_append (fuel : nat) (threadId : value) :
  grows (run <~ AzureFoundryClient.startRun w config threadId ;;
         runId <~ lift (get_prop run (js "id")) ;;
         finalRun <~ AzureFoundryClient.pollRun w config fuel threadId runId
                       AzureFoundryClient.DEFAULT_TIMEOUT_MS ;;
         messages <~ AzureFoundryClient.listMessages w config threadId ;;
         ret {| Foundry.threadId := threadId;
                Foundry.messages := messages;
                Foundry.run := finalRun |}).
Proof.
  apply grows_bind;
    [exact (grows_checked _ _ (disciplined_startRun w config threadId))|].
  intros run. apply grows_bind; [apply grows_lift|]. intros runId.
  apply grows_bind;
    [exact (grows_checked _ _
              (disciplined_pollRun w config fuel threadId runId
                 AzureFoundryClient.DEFAULT_TIMEOUT_MS))|].
  intros finalRun.
  apply grows_bind;
    [exact (grows_checked _ _ (disciplined_listMessages w config threadId))|].
  intros messages. apply grows_ret.
Qed.

Lemma sendMessage_supplied_log (fuel : nat) (content token : jstring)
    (threadId : value) (s : State) :
  truthy threadId = true ->
  getToken w (tokenCalls s) = Token token ->
  exists rest,
    log (snd (AzureFoundryClient.sendMessage w config fuel content threadId s))
    = log s ++
      TokenAcquired (tokenCalls s)
      :: Fetched (fetchCalls s)
           {| method := POST;
              Http.url := AzureFoundryClient.url config
                            (js "/threads/" ++ toString w threadId
                               ++ js "/messages");
              headers := AzureFoundryClient.bearer token;
              body := Some (JObj [(js "role", JStr (js "user"));
                                  (js "content", JStr content)]) |}
      :: rest.
Proof.
  intros Hsupplied Htoken. unfold AzureFoundryClient.sendMessage.
  unfold Async.bind at 1. unfold AzureFoundryClient.ensureThread.
  rewrite Hsupplied. unfold ret at 1.
  destruct (log_after_bind
              (AzureFoundryClient.appendUserMessage w config threadId content)
              _ (fun _ => grows_after_append fuel threadId) s)
    as (rest & Hlog).
  exists rest. rewrite Hlog.
  rewrite (appendUserMessage_log threadId content token s Htoken).
  now rewrite <- app_assoc.
Qed.

End Forwarding.

(** For an accepted request that names a thread, the first thing the
    relay does is acquire a token and post the user message to that
    thread: the thread id and the message go out trimmed, the message
    under the role user, and no thread is created. *)
Theorem postChat_forwards_trimmed (w : World) (config : AppConfig)
    (client : AzureConfig) (fuel : nat) (fields : list (jstring * value))
    (m t token : jstring) (s : State) :
  azure config = Some client ->
  lookup (js "message") fields = JStr m ->
  forallb is_whitespace m = false ->
  lookup (js "threadId") fields = JStr t ->
  forallb is_whitespace t = false ->
  getToken w (tokenCalls s) = Token token ->
  exists rest,
    log (snd (Server.postChat w config fuel (JObj fields) s))
    = log s ++
      TokenAcquired (tokenCalls s)
      :: Fetched (fetchCalls s)
           {| method := POST;
              Http.url := AzureFoundryClient.url client
                            (js "/threads/" ++ trim t ++ js "/messages");
              headers := AzureFoundryClient.bearer token;
              body := Some (JObj [(js "role", JStr (js "user"));
                                  (js "content", JStr (trim m))]) |}
      :: rest.
Proof.
  intros Hazure Hm Hwm Ht Hwt Htoken.
  assert (Hvalid : Server.chatPayloadSchema (JObj fields)
                   = inl {| Server.message := trim m;
                            Server.threadId := JStr (trim t) |}).
  { apply chatPayloadSchema_inl_intro. exists fields, m.
    repeat (split; [first [reflexivity|assumption]|]).
    right. now exists t. }
  rewrite (postChat_valid w config client fuel (JObj fields) _ s Hazure Hvalid).
  cbn [Server.message Server.threadId].
  destruct (sendMessage_supplied_log w client fuel (trim m) token
              (JStr (trim t)) s) as (rest & Hlog).
  { simpl. now apply trim_nonempty_iff. }
  { exact Htoken. }
  exists rest. cbn [toString] in Hlog. rewrite <- Hlog.
  destruct (AzureFoundryClient.sendMessage w client fuel (trim m)
              (JStr (trim t)) s) as [[turn|e|] s']; reflexivity.
Qed.

Lemma postChat_forwards_trimmed_witness :
  exists rest,
    log (snd (Server.postChat Sample.world Sample.configured 151
                Cases.followup initial))
    = TokenAcquired 0
      :: Fetched 0
           {| method := POST;
              Http.url := AzureFoundryClient.url Sample.azureConfig
                            (js "/threads/thread_1/messages");
              headers := AzureFoundryClient.bearer (js "t0");
              body := Some (JObj [(js "role", JStr (js "user"));
                                  (js "content", JStr (js "again"))]) |}
      :: rest.
Proof.
  destruct (postChat_forwards_trimmed Sample.world Sample.configured
              Sample.azureConfig 151
              [(js "message", JStr (js " again "));
               (js "threadId", JStr (js " thread_1 "))]
              (js " again ") (js " thread_1 ") (js "t0") initial
              eq_refl eq_refl eq_refl eq_refl eq_refl eq_refl)
    as (rest & Hlog).
  exists rest. exact Hlog.
Defined.

(** ** Failures of the steps of a turn *)

Section Failures.

Variable w : World.
Variable config : AzureConfig.

(** When no thread is supplied and the remote refuses to create one, or
    answers without an id (a body that is null, or whose id is missing,
    null or empty), the turn fails with the matching error after that
    one request: no message is posted. *)
Theorem sendMessage_thread_not_created (fuel : nat) (content token : jstring)
    (threadId : value) (r : Response) (s : State) :
  truthy threadId = false ->
  getToken w (tokenCalls s) = Token token ->
  respond w (fetchCalls s)
    {| method := POST;
       Http.url := AzureFoundryClient.url config (js "/threads");
       headers := AzureFoundryClient.bearer token;
       body := None |} = Responded r ->
  let after :=
    after_fetch w
      {| method := POST;
         Http.url := AzureFoundryClient.url config (js "/threads");
         headers := AzureFoundryClient.bearer token;
         body := None |}
      (after_acquire w s) in
  (ok r = false ->
   AzureFoundryClient.sendMessage w config fuel content threadId s
   = (Throw (Error (js "Failed to create thread ("
                      ++ of_N (Http.status r) ++ js ")")),
      after))
  /\ (ok r = true ->
      forall body bid,
        parsed r = inl body ->
        get_prop_opt body (js "id") = Ok bid ->
        truthy bid = false ->
        AzureFoundryClient.sendMessage w config fuel content threadId s
        = (Throw (Error (js "Thread creation response did not include an id")),
           after)).
Proof.
  intros Hmissing Htoken Hanswer after. subst after.
  split.
  - intros Hok. unfold AzureFoundryClient.sendMessage.
    unfold Async.bind at 1. unfold AzureFoundryClient.ensureThread.
    rewrite Hmissing.
    unfold Async.bind at 1. unfold AzureFoundryClient.authHeaders.
    unfold Async.bind at 1. unfold acquire at 1. rewrite Htoken.
    unfold ret at 1. unfold Async.bind at 1. unfold fetch at 1.
    cbn [after_acquire fetchCalls]. rewrite Hanswer, Hok. reflexivity.
  - intros Hok body bid Hparsed Hid Hbid.
    unfold AzureFoundryClient.sendMessage.
    unfold Async.bind at 1. unfold AzureFoundryClient.ensureThread.
    rewrite Hmissing.
    unfold Async.bind at 1. unfold AzureFoundryClient.authHeaders.
    unfold Async.bind at 1. unfold acquire at 1. rewrite Htoken.
    unfold ret at 1. unfold Async.bind at 1. unfold fetch at 1.
    cbn [after_acquire fetchCalls]. rewrite Hanswer, Hok. cbn [negb].
    unfold Async.bind at 1. unfold json. rewrite Hparsed.
    unfold ret at 1. unfold Async.bind at 1. unfold lift at 1.
    rewrite Hid, Hbid. reflexivity.
Qed.

(** When the remote refuses the user message, the turn fails with the
    status code and the body of that answer in its message, and stops
    there: one acquisition, one request, no run started. *)
Theorem sendMessage_message_refused (fuel : nat) (content token : jstring)
    (threadId : value) (r : Response) (s : State) :
  truthy threadId = true ->
  getToken w (tokenCalls s) = Token token ->
  respond w (fetchCalls s)
    {| method := POST;
       Http.url := AzureFoundryClient.url config
                     (js "/threads/" ++ toString w threadId ++ js "/messages");
       headers := AzureFoundryClient.bearer token;
       body := Some (JObj [(js "role", JStr (js "user"));
                           (js "content", JStr content)]) |} = Responded r ->
  ok r = false ->
  AzureFoundryClient.sendMessage w config fuel content threadId s
  = (Throw (Error (js "Failed to append user message ("
                     ++ of_N (Http.status r) ++ js "): " ++ text r)),
     after_fetch w
       {| method := POST;
          Http.url := AzureFoundryClient.url config
                        (js "/threads/" ++ toString w threadId
                           ++ js "/messages");
          headers := AzureFoundryClient.bearer token;
          body := Some (JObj [(js "role", JStr (js "user"));
                              (js "content", JStr content)]) |}
       (after_acquire w s)).
Proof.
  intros Hsupplied Htoken Hanswer Hok.
  unfold AzureFoundryClient.sendMessage.
  unfold Async.bind at 1. unfold AzureFoundryClient.ensureThread.
  rewrite Hsupplied. unfold ret at 1.
  unfold Async.bind at 1. unfold AzureFoundryClient.appendUserMessage.
  unfold Async.bind at 1. unfold AzureFoundryClient.authHeaders.
  unfold Async.bind at 1. unfold acquire at 1. rewrite Htoken.
  unfold ret at 1. unfold Async.bind at 1. unfold fetch at 1.
  cbn [after_acquire fetchCalls]. rewrite Hanswer, Hok. reflexivity.
Qed.

(** The deadline of the poll runs from before the token is acquired:
    when the acquisition alone takes as long as the deadline, [pollRun]
    times out without a single status check. *)
Theorem pollRun_deadline_spent_on_token (fuel : nat) (threadId runId : value)
    (timeoutMs : Z) (token : jstring) (s : State) :
  getToken w (tokenCalls s) = Token token ->
  (timeoutMs <= tokenLatency w (tokenCalls s))%Z ->
  AzureFoundryClient.pollRun w config (S fuel) threadId runId timeoutMs s
  = (Throw (Error AzureFoundryClient.TIMED_OUT), after_acquire w s).
Proof.
  intros Htoken Hslow. unfold AzureFoundryClient.pollRun.
  unfold Async.bind at 1. unfold now at 1.
  unfold Async.bind at 1. unfold AzureFoundryClient.authHeaders.
  unfold Async.bind at 1. unfold acquire at 1. rewrite Htoken.
  unfold ret at 1. cbn [AzureFoundryClient.pollLoop].
  unfold Async.bind at 1. unfold now at 1.
  replace (clock (after_acquire w s) - clock s <? timeoutMs)%Z with false;
    [reflexivity|].
  symmetry. apply Z.ltb_ge. cbn [after_acquire clock]. lia.
Qed.

End Failures.

Lemma sendMessage_thread_not_created_witness :
  AzureFoundryClient.sendMessage Cases.nulls Sample.azureConfig 151
    (js "hello") JUndefined initial
  = (Throw (Error (js "Thread creation response did not include an id")),
     after_fetch Cases.nulls
       {| method := POST;
          Http.url := AzureFoundryClient.url Sample.azureConfig (js "/threads");
          headers := AzureFoundryClient.bearer (js "t0");
          body := None |}
       (after_acquire Cases.nulls initial)).
Proof.
  apply (proj2 (sendMessage_thread_not_created Cases.nulls Sample.azureConfig
                  151 (js "hello") (js "t0") JUndefined
                  {| Http.status := 200; text := []; parsed := inl JNull |}
                  initial eq_refl eq_refl eq_refl)
           eq_refl JNull JUndefined eq_refl eq_refl eq_refl).
Defined.

Lemma sendMessage_message_refused_witness :
  fst (AzureFoundryClient.sendMessage Cases.refusing Sample.azureConfig 151
         (js "hello") (JStr (js "thread_1")) initial)
  = Throw (Error (js "Failed to append user message (500): boom")).
Proof.
  rewrite (sendMessage_message_refused Cases.refusing Sample.azureConfig 151
             (js "hello") (js "t0") (JStr (js "thread_1"))
             {| Http.status := 500; text := js "boom";
                parsed := inr (js "Unexpected token") |}
             initial eq_refl eq_refl eq_refl eq_refl).
  reflexivity.
Defined.

Lemma pollRun_deadline_spent_on_token_witness :
  getToken Cases.slow_tokens (tokenCalls initial) = Token (js "t0")
  /\ (AzureFoundryClient.DEFAULT_TIMEOUT_MS
      <= tokenLatency Cases.slow_tokens (tokenCalls initial))%Z
  /\ AzureFoundryClient.pollRun Cases.slow_tokens Sample.azureConfig 1
       (JStr (js "thread_1")) (JStr (js "run_1"))
       AzureFoundryClient.DEFAULT_TIMEOUT_MS initial
     = (Throw (Error AzureFoundryClient.TIMED_OUT),
        after_acquire Cases.slow_tokens initial).
Proof.
  assert (Hslow : (AzureFoundryClient.DEFAULT_TIMEOUT_MS
                   <= tokenLatency Cases.slow_tokens (tokenCalls initial))%Z)
    by (unfold AzureFoundryClient.DEFAULT_TIMEOUT_MS; simpl; lia).
  split; [reflexivity|]. split; [exact Hslow|].
  apply (pollRun_deadline_spent_on_token Cases.slow_tokens Sample.azureConfig
           0 (JStr (js "thread_1")) (JStr (js "run_1"))
           AzureFoundryClient.DEFAULT_TIMEOUT_MS (js "t0") initial
           eq_refl Hslow).
Defined.

(** ** Listing the messages *)

Section Listing.

Variable w : World.
Variable config : AzureConfig.

Lemma mapMessage_succeeds (message : value) (s : State) :
  nullish message = false ->
  (forall mcontent : value,
     get_prop message (js "content") = Ok mcontent ->
     depth mcontent < stackRoom w) ->
  exists m s', AzureFoundryClient.mapMessage w message s = (Ok m, s').
Proof.
  intros Hm Hroom.
  destruct (get_prop_defined message (js "id") Hm) as [mid Hid].
  destruct (get_prop_defined message (js "role") Hm) as [mrole Hrole].
  destruct (get_prop_defined message (js "content") Hm) as [mcontent Hcontent].
  destruct (get_prop_defined message (js "created_at") Hm) as [mcreated Hcreated].
  destruct (normaliseContent_enough (stackRoom w) mcontent
              (Hroom mcontent Hcontent)) as [text Htext].
  pose proof (mapMessage_result w message s mid mrole mcontent mcreated text
                Hid Hrole Hcontent Hcreated Htext) as Hrun.
  destruct (AzureFoundryClient.mapMessage w message s) as [o s'].
  simpl in Hrun. subst o. now eexists _, s'.
Qed.

Lemma mapMessage_null (message : value) (s : State) :
  nullish message = true ->
  AzureFoundryClient.mapMessage w message s
  = (Throw (TypeError message (js "id")), s).
Proof.
  intros Hm. destruct message; try discriminate; reflexivity.
Qed.

Lemma mapM_mapMessage_all (items : list value) :
  Forall (fun d =>
            nullish d = false
            /\ forall mcontent : value,
                 get_prop d (js "content") = Ok mcontent ->
                 depth mcontent < stackRoom w) items ->
  forall s, exists ms s',
    Async.mapM (AzureFoundryClient.mapMessage w) items s = (Ok ms, s')
    /\ Forall2
         (fun remote m =>
            exists s1, fst (AzureFoundryClient.mapMessage w remote s1) = Ok m)
         items ms.
Proof.
  induction 1 as [|d rest Hd Hrest IH]; intros s; simpl.
  - exists [], s. split; [reflexivity|constructor].
  - destruct (mapMessage_succeeds d s (proj1 Hd) (proj2 Hd)) as (m & s1 & Hm).
    destruct (IH s1) as (ms & s2 & Hms & Hall).
    exists (m :: ms), s2. unfold Async.bind. rewrite Hm, Hms.
    split; [reflexivity|]. constructor; [|exact Hall].
    exists s. now rewrite Hm.
Qed.

Lemma mapM_mapMessage_null (pre post : list value) (d : value) :
  Forall (fun x =>
            nullish x = false
            /\ forall mcontent : value,
                 get_prop x (js "content") = Ok mcontent ->
                 depth mcontent < stackRoom w) pre ->
  nullish d = true ->
  forall s,
    fst (Async.mapM (AzureFoundryClient.mapMessage w) (pre ++ d :: post) s)
    = Throw (TypeError d (js "id")).
Proof.
  intros Hpre Hd. induction Hpre as [|x rest Hx Hrest IH]; intros s; simpl.
  - unfold Async.bind. now rewrite (mapMessage_null d s Hd).
  - destruct (mapMessage_succeeds x s (proj1 Hx) (proj2 Hx)) as (m & s1 & Hm).
    unfold Async.bind at 1. rewrite Hm.
    unfold Async.bind at 1. specialize (IH s1).
    destruct (Async.mapM (AzureFoundryClient.mapMessage w)
                (rest ++ d :: post) s1) as [o s2].
    simpl in IH. now subst o.
Qed.

Lemma listMessages_answered (threadId : value) (token : jstring)
    (r : Response) (payload pdata : value) (s : State) :
  getToken w (tokenCalls s) = Token token ->
  respond w (fetchCalls s)
    {| method := GET;
       Http.url := AzureFoundryClient.url config
                     (js "/threads/" ++ toString w threadId
                        ++ js "/messages?order=asc");
       headers := AzureFoundryClient.bearer token;
       body := None |} = Responded r ->
  ok r = true ->
  parsed r = inl payload ->
  get_prop_opt payload (js "data") = Ok pdata ->
  AzureFoundryClient.listMessages w config threadId s
  = Async.mapM (AzureFoundryClient.mapMessage w)
      (match as_array pdata with Some items => items | None => [] end)
      (after_fetch w
         {| method := GET;
            Http.url := AzureFoundryClient.url config
                          (js "/threads/" ++ toString w threadId
                             ++ js "/messages?order=asc");
            headers := AzureFoundryClient.bearer token;
            body := None |}
         (after_acquire w s)).
Proof.
  intros Htoken Hanswer Hok Hparsed Hdata.
  unfold AzureFoundryClient.listMessages.
  unfold Async.bind at 1. unfold AzureFoundryClient.authHeaders.
  unfold Async.bind at 1. unfold acquire at 1. rewrite Htoken.
  unfold ret at 1. unfold Async.bind at 1. unfold fetch at 1.
  cbn [after_acquire fetchCalls]. rewrite Hanswer, Hok. cbn [negb].
  unfold Async.bind at 1. unfold json. rewrite Hparsed.
  unfold ret at 1. unfold Async.bind at 1. unfold lift at 1.
  rewrite Hdata. reflexivity.
Qed.

(** When the list request is answered with success but the answer
    carries no data array (the body is null, a scalar or an array, or
    its data field is missing, null or anything that is not an array),
    [listMessages] returns the empty list rather than an error, after
    one token acquisition and that one request: no identifier is drawn
    and the clock is not read. *)
Theorem listMessages_without_data (threadId : value) (token : jstring)
    (r : Response) (payload pdata : value) (s : State) :
  getToken w (tokenCalls s) = Token token ->
  respond w (fetchCalls s)
    {| method := GET;
       Http.url := AzureFoundryClient.url config
                     (js "/threads/" ++ toString w threadId
                        ++ js "/messages?order=asc");
       headers := AzureFoundryClient.bearer token;
       body := None |} = Responded r ->
  ok r = true ->
  parsed r = inl payload ->
  get_prop_opt payload (js "data") = Ok pdata ->
  as_array pdata = None ->
  AzureFoundryClient.listMessages w config threadId s
  = (Ok [],
     after_fetch w
       {| method := GET;
          Http.url := AzureFoundryClient.url config
                        (js "/threads/" ++ toString w threadId
                           ++ js "/messages?order=asc");
          headers := AzureFoundryClient.bearer token;
          body := None |}
       (after_acquire w s)).
Proof.
  intros Htoken Hanswer Hok Hparsed Hdata Hnone.
  rewrite (listMessages_answered threadId token r payload pdata s
             Htoken Hanswer Hok Hparsed Hdata).
  rewrite Hnone. reflexivity.
Qed.

(** When the list request is answered with success, no element of the
    data array is null or undefined and no content nests deeper than
    the call stack has room for, [listMessages] returns one message for
    every element, in the order of the answer. *)
Theorem listMessages_maps_every_element (threadId : value) (token : jstring)
    (r : Response) (payload pdata : value) (s : State) :
  getToken w (tokenCalls s) = Token token ->
  respond w (fetchCalls s)
    {| method := GET;
       Http.url := AzureFoundryClient.url config
                     (js "/threads/" ++ toString w threadId
                        ++ js "/messages?order=asc");
       headers := AzureFoundryClient.bearer token;
       body := None |} = Responded r ->
  ok r = true ->
  parsed r = inl payload ->
  get_prop_opt payload (js "data") = Ok pdata ->
  Forall (fun d =>
            nullish d = false
            /\ forall mcontent : value,
                 get_prop d (js "content") = Ok mcontent ->
                 depth mcontent < stackRoom w)
    (match as_array pdata with Some items => items | None => [] end) ->
  exists ms s',
    AzureFoundryClient.listMessages w config threadId s = (Ok ms, s')
    /\ List.length ms
       = List.length
           (match as_array pdata with Some items => items | None => [] end)
    /\ Forall2
         (fun remote m =>
            exists s1, fst (AzureFoundryClient.mapMessage w remote s1) = Ok m)
         (match as_array pdata with Some items => items | None => [] end)
         ms.
Proof.
  intros Htoken Hanswer Hok Hparsed Hdata Hall.
  rewrite (listMessages_answered threadId token r payload pdata s
             Htoken Hanswer Hok Hparsed Hdata).
  destruct (mapM_mapMessage_all _ Hall
              (after_fetch w
                 {| method := GET;
                    Http.url := AzureFoundryClient.url config
                                  (js "/threads/" ++ toString w threadId
                                     ++ js "/messages?order=asc");
                    headers := AzureFoundryClient.bearer token;
                    body := None |}
                 (after_acquire w s)))
    as (ms & s' & Hrun & Hmapped).
  exists ms, s'. split; [exact Hrun|]. split; [|exact Hmapped].
  symmetry. eapply Forall2_length. exact Hmapped.
Qed.

(** One null or undefined element in the data array is enough to make
    [listMessages] throw: mapping it reads its id, which is a
    TypeError, so the messages before it, mapped without error (none is
    null and no content nests deeper than the call stack has room for),
    are lost with it. *)
Theorem listMessages_null_element (threadId : value) (token : jstring)
    (r : Response) (payload : value) (pre post : list value) (d : value)
    (s : State) :
  getToken w (tokenCalls s) = Token token ->
  respond w (fetchCalls s)
    {| method := GET;
       Http.url := AzureFoundryClient.url config
                     (js "/threads/" ++ toString w threadId
                        ++ js "/messages?order=asc");
       headers := AzureFoundryClient.bearer token;
       body := None |} = Responded r ->
  ok r = true ->
  parsed r = inl payload ->
  get_prop_opt payload (js "data") = Ok (JArr (pre ++ d :: post)) ->
  Forall (fun x =>
            nullish x = false
            /\ forall mcontent : value,
                 get_prop x (js "content") = Ok mcontent ->
                 depth mcontent < stackRoom w) pre ->
  nullish d = true ->
  fst (AzureFoundryClient.listMessages w config threadId s)
  = Throw (TypeError d (js "id")).
Proof.
  intros Htoken Hanswer Hok Hparsed Hdata Hpre Hd.
  rewrite (listMessages_answered threadId token r payload _ s
             Htoken Hanswer Hok Hparsed Hdata).
  cbn [as_array]. now apply mapM_mapMessage_null.
Qed.

End Listing.

Lemma listMessages_without_data_witness :
  fst (AzureFoundryClient.listMessages Cases.nulls Sample.azureConfig
         (JStr (js "thread_1")) initial) = Ok []
  /\ log (snd (AzureFoundryClient.listMessages Cases.nulls Sample.azureConfig
                 (JStr (js "thread_1")) initial))
     = [TokenAcquired 0;
        Fetched 0
          {| method := GET;
             Http.url := AzureFoundryClient.url Sample.azureConfig
                           (js "/threads/thread_1/messages?order=asc");
             headers := AzureFoundryClient.bearer (js "t0");
             body := None |}].
Proof.
  rewrite (listMessages_without_data Cases.nulls Sample.azureConfig
             (JStr (js "thread_1")) (js "t0")
             {| Http.status := 200; text := []; parsed := inl JNull |}
             JNull JUndefined initial
             eq_refl eq_refl eq_refl eq_refl eq_refl eq_refl).
  split; reflexivity.
Defined.

Lemma listMessages_maps_every_element_witness :
  exists ms s',
    AzureFoundryClient.listMessages Cases.listing Sample.azureConfig
      (JStr (js "thread_1")) initial = (Ok ms, s')
    /\ List.length ms = 2.
Proof.
  destruct (listMessages_maps_every_element Cases.listing Sample.azureConfig
              (JStr (js "thread_1")) (js "t0")
              {| Http.status := 200; text := [];
                 parsed := inl (JObj [(js "data", JArr Cases.two_messages)]) |}
              (JObj [(js "data", JArr Cases.two_messages)])
              (JArr Cases.two_messages) initial
              eq_refl eq_refl eq_refl eq_refl eq_refl)
    as (ms & s' & Hrun & Hlen & _).
  { repeat (constructor;
              [split; [reflexivity|];
               intros mcontent H; cbv in H; injection H as <-;
               apply Nat.ltb_lt; reflexivity|]).
    constructor. }
  now exists ms, s'.
Defined.

Lemma listMessages_null_element_witness :
  fst (AzureFoundryClient.listMessages Cases.listing_null Sample.azureConfig
         (JStr (js "thread_1")) initial)
  = Throw (TypeError JNull (js "id")).
Proof.
  apply (listMessages_null_element Cases.listing_null Sample.azureConfig
           (JStr (js "thread_1")) (js "t0")
           {| Http.status := 200; text := [];
              parsed := inl (JObj [(js "data", JArr Cases.with_null)]) |}
           (JObj [(js "data", JArr Cases.with_null)])
           [JObj [(js "id", JStr (js "msg_1")); (js "content", JStr (js "hi"))]]
           [JObj [(js "content", JArr [JObj [(js "text", JStr (js "hello"))]])]]
           JNull initial eq_refl eq_refl eq_refl eq_refl eq_refl).
  - constructor; [|constructor].
    split; [reflexivity|].
    intros mcontent H. cbv in H. injection H as <-.
    apply Nat.ltb_lt. reflexivity.
  - reflexivity.
Defined.

(** ** A run that cannot be read *)

(** When the remote accepts the message and answers the start of the
    run with a body that is null, the turn fails with a TypeError on
    reading the id of the run, after two acquisitions and two requests:
    the run is never polled and the messages are never listed. *)
Theorem sendMessage_null_run (w : World) (config : AzureConfig) (fuel : nat)
    (content t1 t2 : jstring) (threadId run : value) (r1 r2 : Response)
    (s : State) :
  truthy threadId = true ->
  getToken w (tokenCalls s) = Token t1 ->
  respond w (fetchCalls s)
    (Requests.appendMessage w config threadId content
       (AzureFoundryClient.bearer t1)) = Responded r1 ->
  ok r1 = true ->
  getToken w (S (tokenCalls s)) = Token t2 ->
  respond w (S (fetchCalls s))
    (Requests.startRun w config threadId (AzureFoundryClient.bearer t2))
    = Responded r2 ->
  ok r2 = true ->
  parsed r2 = inl run ->
  nullish run = true ->
  AzureFoundryClient.sendMessage w config fuel content threadId s
  = (Throw (TypeError run (js "id")),
     after_fetch w
       (Requests.startRun w config threadId (AzureFoundryClient.bearer t2))
       (after_acquire w
          (after_fetch w
             (Requests.appendMessage w config threadId content
                (AzureFoundryClient.bearer t1))
             (after_acquire w s)))).
Proof.
  intros Hsupplied Ht1 Hr1 Hok1 Ht2 Hr2 Hok2 Hparsed Hnull.
  unfold Requests.appendMessage, Requests.startRun in *.
  unfold AzureFoundryClient.sendMessage.
  unfold Async.bind at 1. unfold AzureFoundryClient.ensureThread.
  rewrite Hsupplied. unfold ret at 1.
  unfold Async.bind at 1. unfold AzureFoundryClient.appendUserMessage.
  unfold Async.bind at 1. unfold AzureFoundryClient.authHeaders.
  unfold Async.bind at 1. unfold acquire at 1. rewrite Ht1.
  unfold ret at 1. unfold Async.bind at 1. unfold fetch at 1.
  cbn [after_acquire fetchCalls]. rewrite Hr1, Hok1. cbn [negb].
  unfold ret at 1.
  unfold Async.bind at 1. unfold AzureFoundryClient.startRun.
  unfold Async.bind at 1. unfold AzureFoundryClient.authHeaders.
  unfold Async.bind at 1. unfold acquire at 1.
  cbn [after_fetch after_acquire tokenCalls]. rewrite Ht2.
  unfold ret at 1. unfold Async.bind at 1. unfold fetch at 1.
  cbn [fetchCalls after_fetch after_acquire]. rewrite Hr2, Hok2. cbn [negb].
  unfold json. rewrite Hparsed. unfold ret at 1.
  unfold Async.bind at 1. unfold lift at 1.
  destruct run; try discriminate; reflexivity.
Qed.

Lemma sendMessage_null_run_witness :
  fst (AzureFoundryClient.sendMessage Cases.nulls Sample.azureConfig 151
         (js "hello") (JStr (js "thread_1")) initial)
  = Throw (TypeError JNull (js "id")).
Proof.
  rewrite (sendMessage_null_run Cases.nulls Sample.azureConfig 151
             (js "hello") (js "t0") (js "t1") (JStr (js "thread_1")) JNull
             {| Http.status := 200; text := []; parsed := inl JNull |}
             {| Http.status := 200; text := []; parsed := inl JNull |}
             initial eq_refl eq_refl eq_refl eq_refl eq_refl eq_refl eq_refl
             eq_refl eq_refl).
  reflexivity.
Defined.

(** ** Chunks that contribute nothing *)

Lemma normaliseContent_array (frames : nat) (chunks : list value) :
  normaliseContent (S frames) (JArr chunks)
  = (texts <- Js.mapM chunk_text chunks ;; Ok (join_chunks texts)).
Proof. reflexivity. Qed.

Lemma mapM_app {A B : Type} (f : A -> outcome B) (xs ys : list A)
    (xs' ys' : list B) :
  Js.mapM f xs = Ok xs' -> Js.mapM f ys = Ok ys' ->
  Js.mapM f (xs ++ ys) = Ok (xs' ++ ys').
Proof.
  revert xs'. induction xs as [|x rest IH]; intros xs' Hxs Hys; simpl in *.
  - injection Hxs as <-. exact Hys.
  - destruct (f x) as [y| |]; simpl in *; try discriminate.
    destruct (Js.mapM f rest) as [rest'| |]; simpl in *; try discriminate.
    injection Hxs as <-. now rewrite (IH rest' eq_refl Hys).
Qed.

(** In an array, a chunk that resolves to the empty string (null, false,
    a number, an empty object, a nested array, an object whose text is
    not a string) leaves no trace: the result is the one of the array
    without it, with no empty line in its place. *)
Theorem normaliseContent_array_skips_empty (frames : nat)
    (before after : list value) (chunk : value) :
  chunk_text chunk = Ok [] ->
  normaliseContent frames (JArr (before ++ chunk :: after))
  = normaliseContent frames (JArr (before ++ after)).
Proof.
  intros Hempty. destruct frames as [|frames]; [reflexivity|].
  rewrite !normaliseContent_array.
  destruct (mapM_total chunk_text before) as (tb & Hb & _);
    [intros x _; apply chunk_text_total|].
  destruct (mapM_total chunk_text after) as (ta & Ha & _);
    [intros x _; apply chunk_text_total|].
  assert (Hwith : Js.mapM chunk_text (chunk :: after) = Ok ([] :: ta)).
  { simpl. now rewrite Hempty, Ha. }
  rewrite (mapM_app chunk_text before (chunk :: after) tb ([] :: ta) Hb Hwith).
  rewrite (mapM_app chunk_text before after tb ta Hb Ha).
  simpl. unfold join_chunks. now rewrite !filter_app.
Qed.

Lemma normaliseContent_array_skips_empty_witness :
  normaliseContent 1
    (JArr ([JStr (js "a")] ++ JArr [JStr (js "x")] :: [JStr (js "b")]))
  = normaliseContent 1 (JArr ([JStr (js "a")] ++ [JStr (js "b")])).
Proof.
  apply (normaliseContent_array_skips_empty 1
           [JStr (js "a")] [JStr (js "b")] (JArr [JStr (js "x")])).
  reflexivity.
Defined.

(** ** The URL of a request *)

Lemma url_separator (path : jstring) :
  match path with
  | 47%N :: _ => []
  | _ => js "/"
  end
  = match path with
    | c :: _ => if (c =? 47)%N then [] else js "/"
    | [] => js "/"
    end.
Proof.
  destruct path as [|c rest]; [reflexivity|].
  destruct c as [|p]; [reflexivity|].
  do 6 (destruct p as [p|p|]; try reflexivity).
Qed.

Lemma url_unfold (config : AzureConfig) (path : jstring) :
  AzureFoundryClient.url config path
  = AzureFoundryClient.baseUrl config
      ++ match path with
         | c :: _ => if (c =? 47)%N then [] else js "/"
         | [] => js "/"
         end
      ++ path
      ++ (if existsb (N.eqb 63) path then js "&" else js "?")
      ++ js "api-version=" ++ AzureFoundryClient.API_VERSION.
Proof.
  unfold AzureFoundryClient.url. cbv zeta. now rewrite url_separator.
Qed.

(** The leading slash of a path is optional: a path without one gets
    the URL of the same path with one. *)
Theorem url_leading_slash_optional (config : AzureConfig) (path : jstring) :
  (forall rest, path <> 47%N :: rest) ->
  AzureFoundryClient.url config path
  = AzureFoundryClient.url config (47%N :: path).
Proof.
  intros Hnoslash. rewrite !url_unfold.
  assert (Hq : existsb (N.eqb 63) (47%N :: path) = existsb (N.eqb 63) path)
    by reflexivity.
  rewrite Hq. cbn [N.eqb Pos.eqb].
  destruct path as [|c rest]; [reflexivity|].
  destruct (c =? 47)%N eqn:Hc.
  - apply N.eqb_eq in Hc. subst c. now destruct (Hnoslash rest).
  - reflexivity.
Qed.

Lemma url_leading_slash_optional_witness :
  AzureFoundryClient.url Sample.azureConfig (js "threads")
  = AzureFoundryClient.url Sample.azureConfig (js "/threads").
Proof.
  apply (url_leading_slash_optional Sample.azureConfig (js "threads")).
  intros rest H. discriminate H.
Defined.

Lemma count_query_mark (path : jstring) :
  count_occ N.eq_dec
    (path ++ (if existsb (N.eqb 63) path then js "&" else js "?")) 63%N
  = Nat.max 1 (count_occ N.eq_dec path 63%N).
Proof.
  rewrite count_occ_app.
  destruct (existsb (N.eqb 63) path) eqn:Hq.
  - apply existsb_exists in Hq. destruct Hq as (c & Hin & Hc).
    apply N.eqb_eq in Hc. subst c.
    apply (count_occ_In N.eq_dec) in Hin.
    replace (count_occ N.eq_dec (js "&") 63%N) with 0%nat by reflexivity.
    lia.
  - assert (Hnone : count_occ N.eq_dec path 63%N = 0%nat).
    { apply count_occ_not_In. intros Hin.
      assert (existsb (N.eqb 63) path = true) as Hyes.
      { apply existsb_exists. exists 63%N. split; [exact Hin|reflexivity]. }
      congruence. }
    rewrite Hnone.
    replace (count_occ N.eq_dec (js "?") 63%N) with 1%nat by reflexivity.
    reflexivity.
Qed.

(** Every URL is the base URL followed by the path and the API
    version as the last query parameter.  A slash is put between base
    URL and path exactly when the path does not start with one.  The
    version joins a query the path already has with an ampersand and
    opens one with a question mark otherwise, so what follows the base
    URL holds as many question marks as the path, and one when the path
    has none. *)
Theorem url_shape (config : AzureConfig) (path : jstring) :
  exists separator query : jstring,
    AzureFoundryClient.url config path
      = AzureFoundryClient.baseUrl config ++ separator ++ path ++ query
          ++ js "api-version=2025-05-01"
    /\ (separator = [] \/ separator = js "/")
    /\ (separator = [] <-> exists rest, path = 47%N :: rest)
    /\ (query = js "&" \/ query = js "?")
    /\ (query = js "&" <-> In 63%N path)
    /\ count_occ N.eq_dec
         (separator ++ path ++ query ++ js "api-version=2025-05-01") 63%N
       = Nat.max 1 (count_occ N.eq_dec path 63%N).
Proof.
  rewrite url_unfold.
  set (sep := match path with
              | c :: _ => if (c =? 47)%N then [] else js "/"
              | [] => js "/"
              end).
  set (query := if existsb (N.eqb 63) path then js "&" else js "?").
  exists sep, query.
  split; [reflexivity|].
  split.
  { subst sep. destruct path as [|c rest]; [now right|].
    destruct (c =? 47)%N; [now left|now right]. }
  split.
  { subst sep. destruct path as [|c rest].
    - split; [discriminate|]. intros (rest & H). discriminate H.
    - destruct (c =? 47)%N eqn:Hc.
      + apply N.eqb_eq in Hc. subst c. split; [|reflexivity].
        intros _. now exists rest.
      + apply N.eqb_neq in Hc. split; [discriminate|].
        intros (rest' & H). injection H as H _. contradiction. }
  split.
  { subst query. destruct (existsb (N.eqb 63) path); [now left|now right]. }
  split.
  { subst query. destruct (existsb (N.eqb 63) path) eqn:Hq.
    - split; [|reflexivity]. intros _.
      apply existsb_exists in Hq. destruct Hq as (c & Hin & Hc).
      apply N.eqb_eq in Hc. now subst c.
    - split; [discriminate|]. intros Hin.
      assert (existsb (N.eqb 63) path = true) as Hyes.
      { apply existsb_exists. exists 63%N. split; [exact Hin|reflexivity]. }
      congruence. }
  assert (Hsep : count_occ N.eq_dec sep 63%N = 0%nat).
  { subst sep. destruct path as [|c rest]; [reflexivity|].
    destruct (c =? 47)%N; reflexivity. }
  rewrite count_occ_app, Hsep.
  rewrite (app_assoc path query), count_occ_app.
  subst query. rewrite count_query_mark.
  replace (count_occ N.eq_dec (js "api-version=2025-05-01") 63%N)
    with 0%nat by reflexivity.
  lia.
Qed.

(** ** Loading the configuration *)

Lemma split_nonempty (sep : N) (s : jstring) : Config.split sep s <> [].
Proof.
  destruct s as [|c rest]; simpl; [discriminate|].
  destruct (c =? sep)%N; [discriminate|].
  destruct (Config.split sep rest); discriminate.
Qed.

Lemma split_no_sep (sep : N) (s piece : jstring) :
  In piece (Config.split sep s) -> ~ In sep piece.
Proof.
  revert piece. induction s as [|c rest IH]; intros piece; simpl.
  - intros [<-|[]]. tauto.
  - destruct (c =? sep)%N eqn:Hc.
    + intros [<-|Hin]; [tauto|now apply IH].
    + apply N.eqb_neq in Hc.
      destruct (Config.split sep rest) as [|p ps] eqn:Hsplit.
      * intros [<-|[]]. simpl. intros [H|[]]. congruence.
      * intros [<-|Hin].
        -- simpl. intros [H|H]; [congruence|].
           apply (IH p); [now left|exact H].
        -- apply IH. now right.
Qed.

Lemma split_incl (sep : N) (s piece : jstring) (c : N) :
  In piece (Config.split sep s) -> In c piece -> In c s.
Proof.
  revert piece. induction s as [|x rest IH]; intros piece; simpl.
  - intros [<-|[]] [].
  - destruct (x =? sep)%N.
    + intros [<-|Hin]; [intros []|]. intros Hc. right. now apply (IH piece).
    + destruct (Config.split sep rest) as [|p ps] eqn:Hsplit.
      * intros [<-|[]]. simpl. tauto.
      * intros [<-|Hin].
        -- simpl. intros [H|H]; [now left|]. right. apply (IH p); [now left|exact H].
        -- intros Hc. right. apply (IH piece); [now right|exact Hc].
Qed.

Lemma split_cover (sep : N) (s : jstring) (c : N) :
  In c s -> c = sep \/ exists piece, In piece (Config.split sep s) /\ In c piece.
Proof.
  induction s as [|x rest IH]; simpl; [tauto|].
  intros [<-|Hin].
  - destruct (x =? sep)%N eqn:Hx.
    + left. now apply N.eqb_eq.
    + right. destruct (Config.split sep rest) as [|p ps].
      * exists [x]. split; now left.
      * exists (x :: p). split; now left.
  - destruct (IH Hin) as [->|(piece & Hpiece & Hc)]; [now left|].
    right. destruct (x =? sep)%N.
    + exists piece. split; [now right|exact Hc].
    + destruct (Config.split sep rest) as [|p ps]; [destruct Hpiece|].
      destruct Hpiece as [<-|Hpiece].
      * exists (x :: p). split; [now left|now right].
      * exists piece. split; [now right|exact Hc].
Qed.

(** Every allowed origin the configuration holds is a piece of the
    variable between two commas, trimmed: it is not empty, has no white
    space around it and holds no comma. *)
Theorem allowedOrigins_wellformed (value : option jstring) :
  Forall
    (fun origin =>
       nonempty origin = true
       /\ trim origin = origin
       /\ ~ In Config.COMMA origin)
    (Config.allowedOrigins value).
Proof.
  destruct value as [v|]; simpl; [|constructor].
  apply Forall_forall. intros origin Hin.
  apply filter_In in Hin. destruct Hin as [Hin Hne].
  apply in_map_iff in Hin. destruct Hin as (piece & <- & Hpiece).
  split; [exact Hne|]. split; [apply trim_idempotent|].
  intros Hcomma. apply trim_incl in Hcomma.
  now apply (split_no_sep Config.COMMA v piece Hpiece).
Qed.

Lemma filter_nonempty_nil (pieces : list jstring) :
  filter nonempty (List.map trim pieces) = [] <->
  forall piece, In piece pieces -> trim piece = [].
Proof.
  induction pieces as [|p rest IH]; simpl.
  - split; [intros _ piece []|reflexivity].
  - destruct (trim p) eqn:Hp; simpl.
    + rewrite IH. split.
      * intros H piece [<-|Hin]; [exact Hp|now apply H].
      * intros H piece Hin. apply H. now right.
    + split; [discriminate|].
      intros H. specialize (H p (or_introl eq_refl)). congruence.
Qed.

Lemma corsOptions_any (config : AppConfig) :
  Routes.corsOptions config = Routes.AnyOrigin <-> ALLOWED_ORIGINS config = [].
Proof.
  unfold Routes.corsOptions.
  destruct (ALLOWED_ORIGINS config); split; intros H;
    try reflexivity; discriminate.
Qed.

Lemma loadConfig_fields (toNumber : jstring -> spec_float)
    (isUrl : jstring -> bool) (env : Config.Env) (c : AppConfig) :
  Config.loadConfig toNumber isUrl env = Config.Config c ->
  Config.port toNumber (Config.getenv (js "PORT") env) = Some (PORT c)
  /\ LOG_LEVEL c = Config.logLevel (Config.getenv (js "LOG_LEVEL") env)
  /\ ALLOWED_ORIGINS c
     = Config.allowedOrigins (Config.getenv (js "ALLOWED_ORIGINS") env)
  /\ azure c = Config.azureSchema isUrl env.
Proof.
  unfold Config.loadConfig.
  destruct (Config.port toNumber (Config.getenv (js "PORT") env)) as [p|];
    [|discriminate].
  intros H. injection H as <-. now repeat split.
Qed.

(** The server allows every origin exactly when ALLOWED_ORIGINS is unset
    or holds nothing but commas and white space; otherwise it allows the
    listed origins, with credentials. *)
Theorem loadConfig_open_cors (toNumber : jstring -> spec_float)
    (isUrl : jstring -> bool) (env : Config.Env) (c : AppConfig) :
  Config.loadConfig toNumber isUrl env = Config.Config c ->
  (Routes.corsOptions c = Routes.AnyOrigin
   <-> match Config.getenv (js "ALLOWED_ORIGINS") env with
       | None => True
       | Some v =>
           forallb (fun ch => is_whitespace ch || (ch =? Config.COMMA)%N) v
           = true
       end)
  /\ (Routes.corsOptions c <> Routes.AnyOrigin ->
      Routes.corsOptions c = Routes.Origins (ALLOWED_ORIGINS c) true).
Proof.
  intros Hload.
  destruct (loadConfig_fields toNumber isUrl env c Hload)
    as (_ & _ & Horigins & _).
  split.
  - rewrite corsOptions_any, Horigins.
    destruct (Config.getenv (js "ALLOWED_ORIGINS") env) as [v|]; simpl;
      [|tauto].
    rewrite filter_nonempty_nil. split.
    + intros Hblank. apply forallb_forall. intros ch Hch.
      destruct (split_cover Config.COMMA v ch Hch)
        as [->|(piece & Hpiece & Hin)].
      * rewrite N.eqb_refl. apply orb_true_r.
      * specialize (Hblank piece Hpiece). apply trim_nil_iff in Hblank.
        rewrite forallb_forall in Hblank. now rewrite (Hblank ch Hin).
    + intros Hall piece Hpiece. apply trim_nil_iff.
      apply forallb_forall. intros ch Hch.
      rewrite forallb_forall in Hall.
      specialize (Hall ch (split_incl Config.COMMA v piece ch Hpiece Hch)).
      apply orb_true_iff in Hall. destruct Hall as [Hws|Hcomma]; [exact Hws|].
      apply N.eqb_eq in Hcomma. subst ch.
      now destruct (split_no_sep Config.COMMA v piece Hpiece).
  - unfold Routes.corsOptions.
    destruct (ALLOWED_ORIGINS c); [intros H; now destruct H|reflexivity].
Qed.

Lemma loadConfig_open_cors_witness :
  exists c,
    Config.loadConfig Cases.toNumber Cases.isUrl Cases.env = Config.Config c
    /\ Routes.corsOptions c
       = Routes.Origins [js "https://a.example"; js "https://b.example"] true.
Proof.
  eexists. split; [reflexivity|].
  destruct (loadConfig_open_cors Cases.toNumber Cases.isUrl Cases.env _
              eq_refl) as [_ Hlisted].
  rewrite Hlisted; [reflexivity|discriminate].
Defined.

(** The configuration loads unless PORT is set to something that is not
    an integer from 1 to 65535: nothing else in the environment can make
    [loadConfig] throw.  A loaded port is in that range, and it is 3000
    when PORT is unset. *)
Theorem loadConfig_port (toNumber : jstring -> spec_float)
    (isUrl : jstring -> bool) (env : Config.Env) :
  (forall c, Config.loadConfig toNumber isUrl env = Config.Config c ->
             (1 <= PORT c <= 65535)%N)
  /\ (Config.getenv (js "PORT") env = None ->
      exists c, Config.loadConfig toNumber isUrl env = Config.Config c
                /\ PORT c = 3000%N)
  /\ (forall path, Config.loadConfig toNumber isUrl env = Config.ZodError path ->
                   path = js "PORT"
                   /\ exists v, Config.getenv (js "PORT") env = Some v
                                /\ forall z, Config.integer_of (toNumber v) = Some z ->
                                             ~ (1 <= z <= 65535)%Z).
Proof.
  split; [|split].
  - intros c Hload.
    destruct (loadConfig_fields toNumber isUrl env c Hload) as (Hport & _).
    unfold Config.port in Hport.
    destruct (Config.getenv (js "PORT") env) as [v|].
    + destruct (Config.integer_of (toNumber v)) as [z|]; [|discriminate].
      destruct ((1 <=? z) && (z <=? 65535))%Z eqn:Hrange; [|discriminate].
      apply andb_prop in Hrange. destruct Hrange as [Hlo Hhi].
      apply Z.leb_le in Hlo, Hhi. injection Hport as <-. lia.
    + injection Hport as <-. lia.
  - intros Hunset. unfold Config.loadConfig. rewrite Hunset. simpl.
    eexists. split; reflexivity.
  - intros path. unfold Config.loadConfig, Config.port.
    destruct (Config.getenv (js "PORT") env) as [v|]; [|discriminate].
    destruct (Config.integer_of (toNumber v)) as [z|] eqn:Hint.
    + destruct ((1 <=? z) && (z <=? 65535))%Z eqn:Hrange; [discriminate|].
      intros H. injection H as <-. split; [reflexivity|].
      exists v. split; [reflexivity|]. intros z' Hz'.
      assert (z' = z) by congruence. subst z'.
      intros [Hlo Hhi]. apply Z.leb_le in Hlo, Hhi.
      rewrite Hlo, Hhi in Hrange. discriminate.
    + intros H. injection H as <-. split; [reflexivity|].
      exists v. split; [reflexivity|]. intros z' Hz'. congruence.
Qed.

(** The credential group is read as a whole: it is absent as soon as
    one of its six variables is unset, or empty, or the endpoint is not
    a URL, and then the descriptors say so and every chat request is
    answered 503; when it is present it holds the six values exactly as
    the environment gives them, untrimmed. *)
Theorem loadConfig_credentials (toNumber : jstring -> spec_float)
    (isUrl : jstring -> bool) (env : Config.Env) (c : AppConfig) :
  Config.loadConfig toNumber isUrl env = Config.Config c ->
  (azure c = None <->
   Config.url isUrl (Config.getenv (js "AZURE_AI_FOUNDRY_ENDPOINT") env) = None
   \/ Config.min1 (Config.getenv (js "AZURE_AI_FOUNDRY_PROJECT") env) = None
   \/ Config.min1 (Config.getenv (js "AZURE_AI_FOUNDRY_AGENT_ID") env) = None
   \/ Config.min1 (Config.getenv (js "AZURE_TENANT_ID") env) = None
   \/ Config.min1 (Config.getenv (js "AZURE_CLIENT_ID") env) = None
   \/ Config.min1 (Config.getenv (js "AZURE_CLIENT_SECRET") env) = None)
  /\ (azure c = None ->
      Routes.azureConfigured (Routes.getHealthz c) = false
      /\ forall w fuel reqBody s,
           Server.postChat w c fuel reqBody s
           = (Ok {| Server.status := 503;
                    Server.body := Server.ErrorOnly
                      (js "Azure AI Foundry credentials are not configured.") |},
              s))
  /\ (forall client, azure c = Some client ->
      Config.getenv (js "AZURE_AI_FOUNDRY_ENDPOINT") env
        = Some (AZURE_AI_FOUNDRY_ENDPOINT client)
      /\ Config.getenv (js "AZURE_AI_FOUNDRY_PROJECT") env
         = Some (AZURE_AI_FOUNDRY_PROJECT client)
      /\ Config.getenv (js "AZURE_AI_FOUNDRY_AGENT_ID") env
         = Some (AZURE_AI_FOUNDRY_AGENT_ID client)
      /\ Config.getenv (js "AZURE_TENANT_ID") env
         = Some (AZURE_TENANT_ID client)
      /\ Config.getenv (js "AZURE_CLIENT_ID") env
         = Some (AZURE_CLIENT_ID client)
      /\ Config.getenv (js "AZURE_CLIENT_SECRET") env
         = Some (AZURE_CLIENT_SECRET client)).
Proof.
  intros Hload.
  destruct (loadConfig_fields toNumber isUrl env c Hload)
    as (_ & _ & _ & Hazure).
  assert (Hmin1 : forall value v, Config.min1 value = Some v -> value = Some v).
  { intros [x|] v; simpl; [|discriminate].
    destruct (nonempty x); [|discriminate]. now intros H; injection H as <-. }
  assert (Hurl : forall value v, Config.url isUrl value = Some v -> value = Some v).
  { intros [x|] v; simpl; [|discriminate].
    destruct (isUrl x); [|discriminate]. now intros H; injection H as <-. }
  rewrite Hazure. unfold Config.azureSchema.
  destruct (Config.url isUrl
              (Config.getenv (js "AZURE_AI_FOUNDRY_ENDPOINT") env))
    as [endpoint|] eqn:H1;
  destruct (Config.min1 (Config.getenv (js "AZURE_AI_FOUNDRY_PROJECT") env))
    as [project|] eqn:H2;
  destruct (Config.min1 (Config.getenv (js "AZURE_AI_FOUNDRY_AGENT_ID") env))
    as [agent|] eqn:H3;
  destruct (Config.min1 (Config.getenv (js "AZURE_TENANT_ID") env))
    as [tenant|] eqn:H4;
  destruct (Config.min1 (Config.getenv (js "AZURE_CLIENT_ID") env))
    as [clientId|] eqn:H5;
  destruct (Config.min1 (Config.getenv (js "AZURE_CLIENT_SECRET") env))
    as [secret|] eqn:H6;
  (split;
   [ split; [ try discriminate; intros _; tauto
            | try reflexivity;
              intros [H|[H|[H|[H|[H|H]]]]]; discriminate H ]
   | split;
     [ intros Hnone;
       (split;
        [ unfold Routes.getHealthz, Routes.configured, Server.azureClient;
          cbn [Routes.azureConfigured]; rewrite Hazure;
          unfold Config.azureSchema;
          rewrite ?H1, ?H2, ?H3, ?H4, ?H5, ?H6; first [reflexivity|discriminate Hnone]
        | intros w fuel reqBody s;
          apply postChat_unconfigured_state;
          rewrite Hazure; unfold Config.azureSchema;
          rewrite ?H1, ?H2, ?H3, ?H4, ?H5, ?H6; first [reflexivity|discriminate Hnone] ])
     | intros client Hsome; try discriminate Hsome;
       injection Hsome as <-; cbn;
       repeat split; first [ now apply Hurl | now apply Hmin1 ] ] ]).
Qed.

Lemma loadConfig_credentials_witness :
  Config.getenv (js "AZURE_CLIENT_SECRET") Cases.env = Some (js "secret").
Proof.
  destruct (loadConfig_credentials Cases.toNumber Cases.isUrl Cases.env _
              eq_refl) as (_ & _ & Hverbatim).
  destruct (Hverbatim Sample.azureConfig eq_refl)
    as (_ & _ & _ & _ & _ & Hsecret).
  exact Hsecret.
Defined.

(** ** The page *)

Lemma startsWith_app (prefix rest : jstring) :
  Web.startsWith (prefix ++ rest) prefix = true.
Proof.
  induction prefix as [|p prefix IH]; simpl.
  - destruct rest; reflexivity.
  - now rewrite N.eqb_refl, IH.
Qed.



(** When the request fails (the relay is not reached, it answers
    outside 200 to 299, or its body cannot be read), the optimistic
    message is taken back: the page shows the messages it showed before,
    less any whose id starts with "local-", with the error, the same
    thread, and loading ended. *)
Theorem handleSubmit_failure_rolls_back (now : N) (iso message : jstring)
    (relay : value -> Web.Answer) (st : Web.AppState) :
  nonempty (trim (Web.input st)) = true ->
  Web.failure
    (relay (Web.requestBody (trim (Web.input st)) (Web.currentThread st)))
    = Some message ->
  Web.handleSubmit now iso relay st
  = {| Web.input := [];
       Web.currentThread := Web.currentThread st;
       Web.shown :=
         filter (fun m => negb (Web.startsWith (Web.id m) (js "local-")))
           (Web.shown st);
       Web.error := Some message;
       Web.loading := false |}.
Proof.
  intros Hinput Hfailure.
  unfold Web.handleSubmit. cbv zeta. rewrite Hinput. cbn [negb].
  assert (Hrollback :
            forall msg,
              Web.failed st
                (Web.shown st ++
                 [{| Web.id := js "local-" ++ of_N now;
                     Web.role := js "user";
                     Web.content := trim (Web.input st);
                     Web.createdAt := iso |}]) msg
              = {| Web.input := [];
                   Web.currentThread := Web.currentThread st;
                   Web.shown :=
                     filter (fun m => negb (Web.startsWith (Web.id m) (js "local-")))
                       (Web.shown st);
                   Web.error := Some msg;
                   Web.loading := false |}).
  { intros msg. unfold Web.failed. rewrite filter_app.
    cbn [filter Web.id]. rewrite startsWith_app. cbn [negb].
    now rewrite app_nil_r. }
  unfold Web.failure in Hfailure.
  destruct (relay (Web.requestBody (trim (Web.input st)) (Web.currentThread st)))
    as [status data|msg].
  - destruct ((200 <=? status) && (status <=? 299))%N.
    + destruct data as [d|msg]; [discriminate|].
      injection Hfailure as <-. apply Hrollback.
    + injection Hfailure as <-. apply Hrollback.
  - injection Hfailure as <-. apply Hrollback.
Qed.

Lemma handleSubmit_failure_rolls_back_witness :
  Web.shown
    (Web.handleSubmit 7 (js "T")
       (fun _ => Web.Answered 502 (inr (js "unread")))
       {| Web.input := js " hi "; Web.currentThread := None;
          Web.shown := []; Web.error := None; Web.loading := false |})
  = [].
Proof.
  rewrite (handleSubmit_failure_rolls_back 7 (js "T")
             (js "Request failed (502)")
             (fun _ => Web.Answered 502 (inr (js "unread")))
             {| Web.input := js " hi "; Web.currentThread := None;
                Web.shown := []; Web.error := None; Web.loading := false |}
             eq_refl eq_refl).
  reflexivity.
Defined.

(** ** When the poll goes on *)

(** The poll goes on for exactly two status values, the strings queued
    and in_progress; anything else ends it, be it completed, failed or
    cancelled, another type, or no status at all. *)
Theorem terminal_iff (status : value) :
  AzureFoundryClient.terminal status = false
  <-> status = JStr (js "queued") \/ status = JStr (js "in_progress").
Proof.
  split; [apply terminal_false_elim | apply terminal_false_intro].
Qed.
